(** * Jumper Media analytics: the trend, summary and generator routines

    A shallow embedding of [src/api/main.py] (the three query handlers) and
    of [src/database/generate_large_dataset.py] (the engagement generator),
    with the properties of the written specification stated over it.

    Conventions.
    - A [datetime] is the number of microseconds since 0001-01-01 00:00:00,
      a [timedelta] a number of microseconds, a [date] a number of days
      since 0001-01-01 ([DATE(ts)] is the floor division by one day).
    - A Python [float] is an IEEE 754 binary64 value, [spec_float] with
      precision 53 and maximal exponent 1024.
    - A Python exception is a value of [exn]; a computation that may raise
      is a sum [exn + A]. *)

From Stdlib Require Import ZArith List String Bool Lia QArith.
From Stdlib Require Import Sorting.Sorted.
From Stdlib Require Import Floats.SpecFloat.
Import ListNotations.
Local Open Scope string_scope.
Local Open Scope Z_scope.

(** ** Python run-time notions used by the handlers *)
Module Py.

(** Exceptions.  The [detail] of the error raised by the outermost handler
    is [str(e)] of the exception it caught; it is kept symbolic. *)
Inductive exn : Type :=
| HTTPException (status_code : Z) (detail : message)
| OverflowError (msg : string)
| ZeroDivisionError (msg : string)
with message : Type :=
| Text (s : string)
| StrOf (e : exn).

Definition result (A : Type) : Type := (exn + A)%type.

Definition ret {A} (a : A) : result A := inr a.
Definition raise {A} (e : exn) : result A := inl e.
Definition bind {A B} (m : result A) (k : A -> result B) : result B :=
  match m with
  | inl e => inl e
  | inr a => k a
  end.

(** [try: body except Exception as e: handler e] *)
Definition try_except {A} (body : result A) (handler : exn -> result A)
  : result A :=
  match body with
  | inl e => handler e
  | inr a => inr a
  end.

Declare Scope py_scope.
Delimit Scope py_scope with py.
Notation "x <- m ;; k" := (bind m (fun x => k))
  (at level 61, m at next level, right associativity) : py_scope.

(** The status of the HTTP response the framework sends for the outcome
    of a handler: 200 for a returned model, the status of a raised
    [HTTPException], 500 for any other exception. *)
Definition http_status {A} (r : result A) : Z :=
  match r with
  | inr _ => 200
  | inl (HTTPException status_code _) => status_code
  | inl _ => 500
  end.

(** binary64 *)
Definition prec : Z := 53.
Definition emax : Z := 1024.
Definition float : Type := spec_float.

(** [float(n)] for an integer [n] (the nearest binary64 value). *)
Definition float_of_int (n : Z) : float := binary_normalize prec emax n 0 false.

Definition fmul (x y : float) : float := SFmul prec emax x y.

(** An integer as an exact, unrounded operand. *)
Definition exact_int (n : Z) : float :=
  match n with
  | Z0 => S754_zero false
  | Zpos p => S754_finite false p 0
  | Zneg p => S754_finite true p 0
  end.

(** [a / b] on integers: the correctly rounded quotient, computed from
    the exact operands; a quotient beyond the largest float is an
    [OverflowError]. *)
Definition int_truediv (a b : Z) : result float :=
  if b =? 0 then raise (ZeroDivisionError "division by zero")
  else
    match SFdiv prec emax (exact_int a) (exact_int b) with
    | S754_finite s m e => ret (S754_finite s m e)
    | S754_zero s => ret (S754_zero s)
    | _ => raise (OverflowError "integer division result too large for a float")
    end.

(** Round half to even of [n / d], for [d > 0]. *)
Definition div_half_even (n d : Z) : Z :=
  let q := n / d in
  let r := n mod d in
  match 2 * r ?= d with
  | Lt => q
  | Gt => q + 1
  | Eq => if Z.even q then q else q + 1
  end.

(** The nearest integer, ties to even, of [100 * (m * 2 ^ e)]. *)
Definition hundredths (m : positive) (e : Z) : Z :=
  match e with
  | Zneg p => div_half_even (100 * Zpos m) (2 ^ Zpos p)
  | _ => 100 * Zpos m * 2 ^ e
  end.

(** [round(x, 2)]: the shortest-decimal machinery of CPython rounds the
    exact value of [x] to two decimals (ties to even) and reads the
    decimal back as the nearest float; infinities and NaN are returned
    unchanged. *)
Definition round2 (x : float) : float :=
  match x with
  | S754_finite s m e =>
      match hundredths m e with
      | Zpos k => SFdiv prec emax (S754_finite s k 0) (S754_finite false 100 0)
      | _ => S754_zero s
      end
  | _ => x
  end.

(** datetime *)
Definition datetime : Type := Z.
Definition timedelta : Type := Z.

Definition usec_per_day : Z := 86400000000.
Definition usec_per_hour : Z := 3600000000.

(** [datetime.max], 9999-12-31 23:59:59.999999. *)
Definition datetime_max : Z := 3652059 * usec_per_day - 1.

(** [timedelta(days=n)] *)
Definition timedelta_days (n : Z) : result timedelta :=
  if Z.abs n <=? 999999999 then ret (n * usec_per_day)
  else raise (OverflowError "days; must have magnitude <= 999999999").

(** [t - d] on a datetime and a timedelta. *)
Definition datetime_sub (t : datetime) (d : timedelta) : result datetime :=
  let r := t - d in
  if (0 <=? r) && (r <=? datetime_max) then ret r
  else raise (OverflowError "date value out of range").

End Py.


(** ** The relational data and the three SQL queries *)
Module Db.
Import Py.

(** Modelled from the spec: the schema (DDL) is not among the sources; the
    tables carry the columns that the data model of the specification
    lists and that the queries read.  Columns are not nullable; NULL only
    arises from the outer joins of the summary query. *)
Record author : Type := {
  author_id : Z;
  name : string
}.

Record post : Type := {
  post_id : Z;
  post_author_id : Z;          (* posts.author_id *)
  title : string;
  publish_timestamp : datetime
}.

Record engagement : Type := {
  engagement_id : Z;
  eng_post_id : Z;             (* engagements.post_id *)
  type : string;
  user_id : option Z;
  engaged_timestamp : datetime
}.

Record database : Type := {
  authors : list author;
  posts : list post;
  engagements : list engagement
}.

(** One row of a trend query.  [date] is the day number; the handlers
    render it with [str], which is left out. *)
Record EngagementTrend : Type := {
  date : Z;
  views : Z;
  likes : Z;
  comments : Z;
  shares : Z;
  total : Z
}.

(** [DATE(ts)] *)
Definition DATE (ts : datetime) : Z := ts / usec_per_day.

(** [COUNT( * ) FILTER (WHERE f)] over a group. *)
Definition count_filter {A} (f : A -> bool) (l : list A) : Z :=
  Z.of_nat (List.length (filter f l)).

Definition has_type (t : string) (e : engagement) : bool :=
  String.eqb (type e) t.

(** The distinct values of the grouping key, in the order of
    [ORDER BY date]. *)
Fixpoint insert_date (d : Z) (l : list Z) : list Z :=
  match l with
  | [] => [d]
  | x :: r =>
      if d <? x then d :: l
      else if d =? x then l
      else x :: insert_date d r
  end.

Definition group_dates (es : list engagement) : list Z :=
  fold_right (fun e acc => insert_date (DATE (engaged_timestamp e)) acc) [] es.

Definition on_date (d : Z) (e : engagement) : bool :=
  DATE (engaged_timestamp e) =? d.

(** The select list, evaluated on the group of date [d]. *)
Definition trend_row (es : list engagement) (d : Z) : EngagementTrend :=
  let g := filter (on_date d) es in
  {| date := d;
     views := count_filter (has_type "view") g;
     likes := count_filter (has_type "like") g;
     comments := count_filter (has_type "comment") g;
     shares := count_filter (has_type "share") g;
     total := count_filter (fun _ => true) g |}.

(** [SELECT DATE(engaged_timestamp) AS date, COUNT... GROUP BY
    DATE(engaged_timestamp) ORDER BY date] over the rows [es] that passed
    the WHERE clause. *)
Definition daily_counts (es : list engagement) : list EngagementTrend :=
  map (trend_row es) (group_dates es).

(** WHERE clauses of the two post queries. *)
Definition post_current_where (pid : Z) (current_start : datetime)
  (e : engagement) : bool :=
  (eng_post_id e =? pid) && (current_start <=? engaged_timestamp e).

Definition post_previous_where (pid : Z) (previous_start current_start : datetime)
  (e : engagement) : bool :=
  (eng_post_id e =? pid) && (previous_start <=? engaged_timestamp e)
  && (engaged_timestamp e <? current_start).

Definition post_current_query (db : database) (pid : Z)
  (current_start : datetime) : list EngagementTrend :=
  daily_counts (filter (post_current_where pid current_start) (engagements db)).

Definition post_previous_query (db : database) (pid : Z)
  (previous_start current_start : datetime) : list EngagementTrend :=
  daily_counts
    (filter (post_previous_where pid previous_start current_start)
       (engagements db)).

(** [engagements e JOIN posts p ON e.post_id = p.post_id] *)
Definition engagements_join_posts (db : database) : list (engagement * post) :=
  flat_map
    (fun e =>
       map (fun p => (e, p))
         (filter (fun p => eng_post_id e =? post_id p) (posts db)))
    (engagements db).

Definition author_current_where (aid : Z) (current_start : datetime)
  (r : engagement * post) : bool :=
  (post_author_id (snd r) =? aid)
  && (current_start <=? engaged_timestamp (fst r)).

Definition author_previous_where (aid : Z) (previous_start current_start : datetime)
  (r : engagement * post) : bool :=
  (post_author_id (snd r) =? aid)
  && (previous_start <=? engaged_timestamp (fst r))
  && (engaged_timestamp (fst r) <? current_start).

Definition author_current_query (db : database) (aid : Z)
  (current_start : datetime) : list EngagementTrend :=
  daily_counts
    (map fst (filter (author_current_where aid current_start)
                (engagements_join_posts db))).

Definition author_previous_query (db : database) (aid : Z)
  (previous_start current_start : datetime) : list EngagementTrend :=
  daily_counts
    (map fst (filter (author_previous_where aid previous_start current_start)
                (engagements_join_posts db))).

(** [SELECT title FROM posts WHERE post_id = %s], [fetchone]. *)
Definition select_post_title (db : database) (pid : Z) : option string :=
  option_map title (find (fun p => post_id p =? pid) (posts db)).

(** [SELECT name FROM authors WHERE author_id = %s], [fetchone]. *)
Definition select_author_name (db : database) (aid : Z) : option string :=
  option_map name (find (fun a => author_id a =? aid) (authors db)).

(** The summary query.  A row of
    [authors a LEFT JOIN posts p ON ... LEFT JOIN engagements e ON ...]. *)
Definition summary_row : Type := (author * option post * option engagement)%type.

Definition author_left_join_posts (db : database) : list (author * option post) :=
  flat_map
    (fun a =>
       match filter (fun p => author_id a =? post_author_id p) (posts db) with
       | [] => [(a, None)]
       | ps => map (fun p => (a, Some p)) ps
       end)
    (authors db).

Definition summary_join (db : database) : list summary_row :=
  flat_map
    (fun ap : author * option post =>
       match snd ap with
       | None => [(fst ap, None, None)]
       | Some p =>
           match filter (fun e => post_id p =? eng_post_id e) (engagements db) with
           | [] => [(fst ap, Some p, None)]
           | es => map (fun e => (fst ap, Some p, Some e)) es
           end
       end)
    (author_left_join_posts db).

(** [WHERE p.publish_timestamp >= %s OR p.publish_timestamp IS NULL] *)
Definition summary_where (start_date : datetime) (r : summary_row) : bool :=
  match snd (fst r) with
  | Some p => start_date <=? publish_timestamp p
  | None => true
  end.

Definition row_author (r : summary_row) : author := fst (fst r).
Definition row_post (r : summary_row) : option post := snd (fst r).
Definition row_engagement (r : summary_row) : option engagement := snd r.

(** The non-NULL values of a nullable column. *)
Fixpoint non_null {A} (l : list (option A)) : list A :=
  match l with
  | [] => []
  | Some a :: r => a :: non_null r
  | None :: r => non_null r
  end.

(** [COUNT(DISTINCT c)] *)
Definition count_distinct (l : list Z) : Z :=
  Z.of_nat (List.length (nodup Z.eq_dec l)).

Definition engagement_has_type (t : string) (r : summary_row) : bool :=
  match row_engagement r with
  | Some e => has_type t e
  | None => false
  end.

(** The single row the summary query returns.  [avg_row] is NULL when the
    divisor is turned into NULL by [NULLIF]; otherwise it is the NUMERIC
    quotient rounded to two decimals, in hundredths. *)
Record summary_result : Type := {
  total_authors_col : Z;
  total_posts_col : Z;
  total_engagements_col : Z;
  total_views_col : Z;
  total_likes_col : Z;
  total_comments_col : Z;
  total_shares_col : Z;
  avg_engagement_per_post_col : option Z
}.

Section SummaryQuery.

(** [ROUND(a::NUMERIC / b, 2)] of the database, in hundredths, for [b <> 0]. *)
Variable numeric_div_round2 : Z -> Z -> Z.

Definition NULLIF (a b : Z) : option Z := if a =? b then None else Some a.

Definition summary_query (db : database) (start_date : datetime) : summary_result :=
  let rows := filter (summary_where start_date) (summary_join db) in
  let n_posts := count_distinct (map post_id (non_null (map row_post rows))) in
  let n_eng := Z.of_nat (List.length (non_null (map row_engagement rows))) in
  {| total_authors_col := count_distinct (map (fun r => author_id (row_author r)) rows);
     total_posts_col := n_posts;
     total_engagements_col := n_eng;
     total_views_col := count_filter (engagement_has_type "view") rows;
     total_likes_col := count_filter (engagement_has_type "like") rows;
     total_comments_col := count_filter (engagement_has_type "comment") rows;
     total_shares_col := count_filter (engagement_has_type "share") rows;
     avg_engagement_per_post_col :=
       option_map (numeric_div_round2 n_eng) (NULLIF n_posts 0) |}.

End SummaryQuery.

End Db.

(** ** The request handlers of [src/api/main.py] *)
Module Api.
Import Py Db.
Local Open Scope py_scope.

Record PostTrendsResponse : Type := {
  post_id : Z;
  post_title : string;
  current_period : list EngagementTrend;
  previous_period : list EngagementTrend;
  change_percent : float
}.

Record AuthorTrendsResponse : Type := {
  author_id : Z;
  author_name : string;
  author_current_period : list EngagementTrend;
  author_previous_period : list EngagementTrend;
  author_change_percent : float
}.

Record SummaryMetrics : Type := {
  total_authors : Z;
  total_posts : Z;
  total_engagements : Z;
  total_views : Z;
  total_likes : Z;
  total_comments : Z;
  total_shares : Z;
  avg_engagement_per_post : float
}.

(** [sum(row['total'] for row in period)] *)
Definition sum_total (period : list EngagementTrend) : Z :=
  fold_right (fun row acc => total row + acc) 0 period.

(** [change_percent = 0.0; if previous_total > 0: change_percent =
    ((current_total - previous_total) / previous_total) * 100] *)
Definition percent_change (current_total previous_total : Z) : result float :=
  if 0 <? previous_total then
    q <- int_truediv (current_total - previous_total) previous_total ;;
    ret (fmul q (float_of_int 100))
  else ret (S754_zero false).

(** [except Exception as e: raise HTTPException(status_code=500,
    detail=str(e))] *)
Definition internal_error {A} (e : exn) : result A :=
  raise (HTTPException 500 (StrOf e)).

(** [GET /api/engagement/trends/post/{post_id}?days=N]; [now] is the
    reading of [datetime.now()]. *)
Definition get_post_trends (db : database) (now : datetime) (post_id days : Z)
  : result PostTrendsResponse :=
  try_except
    (match select_post_title db post_id with
     | None => raise (HTTPException 404 (Text "Post not found"))
     | Some post_title =>
         d <- timedelta_days days ;;
         current_start <- datetime_sub now d ;;
         let current_period := post_current_query db post_id current_start in
         d' <- timedelta_days days ;;
         previous_start <- datetime_sub current_start d' ;;
         let previous_period :=
           post_previous_query db post_id previous_start current_start in
         let current_total := sum_total current_period in
         let previous_total := sum_total previous_period in
         change_percent <- percent_change current_total previous_total ;;
         ret {| post_id := post_id;
                post_title := post_title;
                current_period := current_period;
                previous_period := previous_period;
                change_percent := round2 change_percent |}
     end)
    internal_error.

(** [GET /api/engagement/trends/author/{author_id}?days=N] *)
Definition get_author_trends (db : database) (now : datetime) (author_id days : Z)
  : result AuthorTrendsResponse :=
  try_except
    (match select_author_name db author_id with
     | None => raise (HTTPException 404 (Text "Author not found"))
     | Some author_name =>
         d <- timedelta_days days ;;
         current_start <- datetime_sub now d ;;
         let current_period := author_current_query db author_id current_start in
         d' <- timedelta_days days ;;
         previous_start <- datetime_sub current_start d' ;;
         let previous_period :=
           author_previous_query db author_id previous_start current_start in
         let current_total := sum_total current_period in
         let previous_total := sum_total previous_period in
         change_percent <- percent_change current_total previous_total ;;
         ret {| author_id := author_id;
                author_name := author_name;
                author_current_period := current_period;
                author_previous_period := previous_period;
                author_change_percent := round2 change_percent |}
     end)
    internal_error.

(** [x or 0] on an integer column. *)
Definition or_zero (x : Z) : Z := if x =? 0 then 0 else x.

(** [float(Decimal)] of a value given in hundredths: the nearest float. *)
Definition float_of_decimal2 (k : Z) : float :=
  SFdiv prec emax (exact_int k) (exact_int 100).

(** [float(x or 0)] on the nullable NUMERIC column. *)
Definition float_or_zero (x : option Z) : float :=
  match x with
  | None => float_of_int 0
  | Some k => if k =? 0 then float_of_int 0 else float_of_decimal2 k
  end.

Section Summary.

Variable numeric_div_round2 : Z -> Z -> Z.

(** [GET /api/analytics/summary?days=N] *)
Definition get_analytics_summary (db : database) (now : datetime) (days : Z)
  : result SummaryMetrics :=
  try_except
    (d <- timedelta_days days ;;
     start_date <- datetime_sub now d ;;
     let result := summary_query numeric_div_round2 db start_date in
     ret {| total_authors := or_zero (total_authors_col result);
            total_posts := or_zero (total_posts_col result);
            total_engagements := or_zero (total_engagements_col result);
            total_views := or_zero (total_views_col result);
            total_likes := or_zero (total_likes_col result);
            total_comments := or_zero (total_comments_col result);
            total_shares := or_zero (total_shares_col result);
            avg_engagement_per_post :=
              float_or_zero (avg_engagement_per_post_col result) |})
    internal_error.

End Summary.

End Api.

(** ** The engagement generator of [src/database/generate_large_dataset.py] *)
Module Generator.
Import Py Db.
Local Open Scope py_scope.

(** The values one iteration of the loop draws from [random]. *)
Record draws : Type := {
  chosen_post : Z * datetime;      (* random.choice(posts) *)
  engagement_type : string;        (* random.choices(engagement_types, ...)[0] *)
  chosen_user : option Z;          (* a user id, or None for 10% *)
  expovariate : Q;                 (* random.expovariate(0.1), a float >= 0 *)
  hour_adjustment : Z              (* random.choices(range(-3, 4), ...)[0] *)
}.

(** What [random] can return for a given list of posts. *)
Definition possible (posts : list (Z * datetime)) (r : draws) : Prop :=
  In (chosen_post r) posts
  /\ In (engagement_type r) ["view"; "like"; "comment"; "share"]
  /\ (0 <= expovariate r)%Q
  /\ -3 <= hour_adjustment r <= 3.

(** [min(hours_after_publish, 720)] *)
Definition cap_hours (h : Q) : Q :=
  if Qle_bool h 720 then h else 720%Q.

(** [timedelta(hours=h)] for a float [h], taken as the rational it
    denotes: the duration in whole microseconds, rounded to nearest. *)
Definition timedelta_hours (h : Q) : timedelta :=
  div_half_even (Qnum h * usec_per_hour) (Zpos (Qden h)).

(** [t + d] on a datetime and a timedelta. *)
Definition datetime_add (t : datetime) (d : timedelta) : result datetime :=
  let r := t + d in
  if (0 <=? r) && (r <=? datetime_max) then ret r
  else raise (OverflowError "date value out of range").

(** The body of the loop of [generate_engagements]: the row inserted for
    engagement id [i]. *)
Definition generate_engagement (i : Z) (r : draws) : result engagement :=
  let '(post_id, publish_time) := chosen_post r in
  let hours_after_publish := expovariate r in
  let hours_after_publish := cap_hours hours_after_publish in
  engaged_time <- datetime_add publish_time (timedelta_hours hours_after_publish) ;;
  engaged_time <- datetime_add engaged_time (hour_adjustment r * usec_per_hour) ;;
  ret {| engagement_id := i;
         eng_post_id := post_id;
         type := engagement_type r;
         user_id := chosen_user r;
         engaged_timestamp := engaged_time |}.

(** [for i in range(2006, num_engagements + 2006)]: the rows inserted, in
    order, for the draws of the successive iterations. *)
Fixpoint generate_from (i : Z) (rs : list draws) : result (list engagement) :=
  match rs with
  | [] => ret []
  | r :: rs' =>
      e <- generate_engagement i r ;;
      es <- generate_from (i + 1) rs' ;;
      ret (e :: es)
  end.

Definition generate_engagements (rs : list draws) : result (list engagement) :=
  generate_from 2006 rs.

End Generator.

(** ** The notions the properties are stated with *)
Module Props.
Import Py Db Api.
Local Open Scope py_scope.

(** A trend request names a post or an author. *)
Inductive entity : Type :=
| Post (post_id : Z)
| Author (author_id : Z).

(** The part of a trend response the two endpoints share. *)
Record trends : Type := {
  current : list EngagementTrend;
  previous : list EngagementTrend;
  change : float
}.

Definition trend_request (db : database) (now : datetime) (ent : entity) (days : Z)
  : result trends :=
  match ent with
  | Post id =>
      r <- get_post_trends db now id days ;;
      ret {| current := current_period r;
             previous := previous_period r;
             change := change_percent r |}
  | Author id =>
      r <- get_author_trends db now id days ;;
      ret {| current := author_current_period r;
             previous := author_previous_period r;
             change := author_change_percent r |}
  end.

(** The engagements of an entity: those of the post, or the rows of the
    join of engagements and posts whose post is the author's. *)
Definition entity_engagements (db : database) (ent : entity) : list engagement :=
  match ent with
  | Post id => filter (fun e => eng_post_id e =? id) (engagements db)
  | Author id =>
      map fst (filter (fun r : engagement * post => post_author_id (snd r) =? id)
                 (engagements_join_posts db))
  end.

Definition entity_exists (db : database) (ent : entity) : bool :=
  match ent with
  | Post id => existsb (fun p => Db.post_id p =? id) (posts db)
  | Author id => existsb (fun a => Db.author_id a =? id) (authors db)
  end.

(** The two windows as the queries test them, for a request at [now] with
    [days = N]: [now - N <= t], and [now - 2N <= t < now - N]. *)
Definition in_current (now : datetime) (days : Z) (t : datetime) : bool :=
  now - days * usec_per_day <=? t.

Definition in_previous (now : datetime) (days : Z) (t : datetime) : bool :=
  (now - 2 * days * usec_per_day <=? t) && (t <? now - days * usec_per_day).

(** The current window as the specification words it: [now - N <= t < now]. *)
Definition in_current_as_stated (now : datetime) (days : Z) (t : datetime) : bool :=
  (now - days * usec_per_day <=? t) && (t <? now).

Definition in_window (w : datetime -> bool) (e : engagement) : bool :=
  w (engaged_timestamp e).

(** The number of engagements a period reports for the date [d]. *)
Definition counted (period : list EngagementTrend) (d : Z) : Z :=
  sum_total (filter (fun row => date row =? d) period).

(** A period counts exactly the engagements of [es] in the window [w]. *)
Definition counts_exactly (period : list EngagementTrend)
  (w : datetime -> bool) (es : list engagement) : Prop :=
  forall d, counted period d = count_filter (on_date d) (filter (in_window w) es).

(** The claim on the windows as the specification states it. *)
Definition windows_as_stated (db : database) (now : datetime) (ent : entity)
  (days : Z) (t : trends) : Prop :=
  counts_exactly (current t) (in_current_as_stated now days) (entity_engagements db ent)
  /\ counts_exactly (previous t) (in_previous now days) (entity_engagements db ent).



(** Strictly increasing dates. *)
Fixpoint increasing_dates (period : list EngagementTrend) : Prop :=
  match period with
  | [] => True
  | row :: rest =>
      match rest with
      | [] => True
      | next :: _ => date row < date next
      end /\ increasing_dates rest
  end.

(** Authors the summary counts for the start date [start_date]: those
    without any post, and those with a post published at or after it. *)
Definition posts_of (db : database) (a : author) : list post :=
  filter (fun p => Db.author_id a =? post_author_id p) (posts db).

Definition counted_author (db : database) (start_date : datetime) (a : author) : bool :=
  match posts_of db a with
  | [] => true
  | ps => existsb (fun p => start_date <=? publish_timestamp p) ps
  end.

End Props.

(** ** Concrete data used to run the definitions *)
Module Example.
Import Py Db Api Props Generator.

(** 2025-01-01 12:00:00 *)
Definition now0 : datetime := 739251 * usec_per_day + 12 * usec_per_hour.

Definition ada : author := {| Db.author_id := 1; name := "Ada" |}.
Definition bo : author := {| Db.author_id := 2; name := "Bo" |}.
Definition cy : author := {| Db.author_id := 3; name := "Cy" |}.

Definition hello : post :=
  {| Db.post_id := 101; post_author_id := 1; title := "Hello";
     publish_timestamp := now0 - 10 * usec_per_day |}.
Definition old : post :=
  {| Db.post_id := 102; post_author_id := 3; title := "Old";
     publish_timestamp := now0 - 400 * usec_per_day |}.

Definition eng (i : Z) (t : string) (ts : datetime) : engagement :=
  {| engagement_id := i; eng_post_id := 101; type := t; user_id := None;
     engaged_timestamp := ts |}.

(** Ada has one post, Bo none, Cy one old post.  The post of Ada has two
    engagements yesterday, one nine days ago and one dated an hour after
    [now0]. *)
Definition db0 : database :=
  {| authors := [ada; bo; cy];
     posts := [hello; old];
     engagements :=
       [ eng 2001 "view" (now0 - usec_per_day);
         eng 2002 "like" (now0 - usec_per_day + usec_per_hour);
         eng 2003 "view" (now0 - 9 * usec_per_day);
         eng 2004 "view" (now0 + usec_per_hour) ] |}.


(** Exact quotient, rounded half away from zero, in hundredths. *)
Definition round_half_up_div (a b : Z) : Z := (200 * a + b) / (2 * b).

(** Draws of the generator for the post [(104, now0)]. *)
Definition early : draws :=
  {| chosen_post := (104, now0); engagement_type := "view"; chosen_user := None;
     expovariate := 1 # 2; hour_adjustment := -3 |}.

Definition late : draws :=
  {| chosen_post := (104, now0); engagement_type := "view"; chosen_user := Some 506;
     expovariate := 1000 # 1; hour_adjustment := 3 |}.

End Example.

(** ** Further notions on the handlers *)
Module Behaviour.
Import Py Db Api Props.

(** [days] is accepted by [timedelta] and the start date of the summary
    is a datetime. *)
Definition summary_date_ok (now : datetime) (days : Z) : bool :=
  (Z.abs days <=? 999999999)
  && (0 <=? now - days * usec_per_day)
  && (now - days * usec_per_day <=? datetime_max).

(** The same for the two start dates of a trend request. *)
Definition trend_dates_ok (now : datetime) (days : Z) : bool :=
  summary_date_ok now days
  && (0 <=? now - days * usec_per_day - days * usec_per_day)
  && (now - days * usec_per_day - days * usec_per_day <=? datetime_max).

(** The four engagement types the queries count. *)
Definition engagement_types : list string := ["view"; "like"; "comment"; "share"].

Definition sum_list (l : list Z) : Z := fold_right Z.add 0 l.

(** The posts of an author, [posts WHERE author_id = aid]. *)
Definition author_posts (db : database) (aid : Z) : list post :=
  filter (fun p => post_author_id p =? aid) (posts db).

(** A post the summary counts: published at or after the start date, by
    an author of the authors table. *)
Definition counted_post (db : database) (start_date : datetime) (p : post) : bool :=
  (start_date <=? publish_timestamp p)
  && existsb (fun a => Db.author_id a =? post_author_id p) (authors db).

(** An author, a post of that author published at or after the start
    date, and an engagement of that post. *)
Definition counted_triple (start_date : datetime)
  (x : author * (post * engagement)) : bool :=
  (Db.author_id (fst x) =? post_author_id (fst (snd x)))
  && (Db.post_id (fst (snd x)) =? eng_post_id (snd (snd x)))
  && (start_date <=? publish_timestamp (fst (snd x))).

(** The row carries an engagement ([e.engagement_id] is not NULL). *)
Definition has_engagement (r : summary_row) : bool :=
  match row_engagement r with
  | Some _ => true
  | None => false
  end.

End Behaviour.

(** ** The engagement generator run against the database *)
Module Loader.
Import Py Db Generator.
Local Open Scope py_scope.

(** [SELECT post_id, publish_timestamp FROM posts], [fetchall]. *)
Definition select_posts (db : database) : list (Z * datetime) :=
  map (fun p => (post_id p, publish_timestamp p)) (posts db).

(** [DELETE FROM engagements WHERE engagement_id > 2005] *)
Definition delete_generated (es : list engagement) : list engagement :=
  filter (fun e => engagement_id e <=? 2005) es.

(** The engagements table as the database has committed it, and as the
    open transaction of the connection sees it. *)
Record connection : Type := {
  committed : list engagement;
  working : list engagement
}.

(** [cursor.execute("INSERT INTO engagements ...", row)] *)
Definition insert_row (c : connection) (row : engagement) : connection :=
  {| committed := committed c; working := working c ++ [row] |}.

(** [conn.commit()] *)
Definition commit (c : connection) : connection :=
  {| committed := working c; working := working c |}.

(** The loop of [generate_engagements] from id [i] on, with its commit
    every 1000 ids; the exception that ends it, if any. *)
Fixpoint insert_engagements (i : Z) (rs : list draws) (c : connection)
  : connection * option exn :=
  match rs with
  | [] => (c, None)
  | r :: rs' =>
      match generate_engagement i r with
      | inl e => (c, Some e)
      | inr row =>
          let c := insert_row c row in
          let c := if i mod 1000 =? 0 then commit c else c in
          insert_engagements (i + 1) rs' c
      end
  end.

(** [generate_engagements(conn, num_engagements)] on a connection without
    pending work: the database it leaves - after the final commit, or,
    when an exception leaves the function, with the uncommitted work of
    the connection lost - and that exception. *)
Definition run_generate_engagements (db : database) (rs : list draws)
  : database * option exn :=
  let c0 := {| committed := engagements db;
               working := delete_generated (engagements db) |} in
  let (c, err) := insert_engagements 2006 rs c0 in
  match err with
  | None =>
      ({| authors := authors db; posts := posts db;
          engagements := working (commit c) |}, None)
  | Some e =>
      ({| authors := authors db; posts := posts db;
          engagements := committed c |}, Some e)
  end.

(** The ids [i, i+1, ...] of [n] successive iterations. *)
Definition ids_from (i : Z) (n : nat) : list Z :=
  map (fun k => i + Z.of_nat k) (seq 0 n).

(** The last id at or below [x] at which the loop commits. *)
Definition last_commit (x : Z) : Z := 1000 * (x / 1000).

End Loader.

(** ** The queries of [src/run_analysis.py] and [src/verify_setup.py] *)
Module Analysis.
Import Py Db.

(** [EXTRACT(HOUR FROM ts)] *)
Definition HOUR (ts : datetime) : Z := (ts mod usec_per_day) / usec_per_hour.

Definition at_hour (h : Z) (e : engagement) : bool :=
  HOUR (engaged_timestamp e) =? h.

(** The distinct hours, in the order of [ORDER BY hour_of_day]. *)
Definition group_hours (es : list engagement) : list Z :=
  fold_right (fun e acc => insert_date (HOUR (engaged_timestamp e)) acc) [] es.

(** [SELECT EXTRACT(HOUR FROM engaged_timestamp) AS hour_of_day, COUNT( * )
    AS total_engagements FROM engagements GROUP BY EXTRACT(HOUR FROM
    engaged_timestamp) ORDER BY hour_of_day]: the rows
    [(hour_of_day, total_engagements)]. *)
Definition hour_query (db : database) : list (Z * Z) :=
  map (fun h => (h, count_filter (at_hour h) (engagements db)))
    (group_hours (engagements db)).

(** [s.idxmax()] on the rows of a frame: the first row that holds the
    largest value. *)
Fixpoint idxmax (rows : list (Z * Z)) : option (Z * Z) :=
  match rows with
  | [] => None
  | r :: rest =>
      match idxmax rest with
      | None => Some r
      | Some m => if snd m <=? snd r then Some r else Some m
      end
  end.

(** [if len(hour_data) > 0: peak_hour = hour_data.loc[
    hour_data['total_engagements'].idxmax(), 'hour_of_day']] *)
Definition peak_hour (db : database) : option Z :=
  option_map fst (idxmax (hour_query db)).

(** [WHERE p.publish_timestamp >= CURRENT_DATE - INTERVAL '365 days'] of
    the executive summary, [today] being the day number of CURRENT_DATE:
    a row without post fails the comparison. *)
Definition year_start (today : Z) : datetime := (today - 365) * usec_per_day.

Definition executive_where (start_date : datetime) (r : summary_row) : bool :=
  match row_post r with
  | Some p => start_date <=? publish_timestamp p
  | None => false
  end.

Section ExecutiveSummary.

Variable numeric_div_round2 : Z -> Z -> Z.

(** The executive summary of [run_analysis.main]: the select list and the
    joins of the API summary, under [executive_where] for the start of
    the day 365 days before [today]. *)
Definition executive_summary (db : database) (today : Z) : summary_result :=
  let rows := filter (executive_where (year_start today)) (summary_join db) in
  let n_posts := count_distinct (map post_id (non_null (map row_post rows))) in
  let n_eng := Z.of_nat (List.length (non_null (map row_engagement rows))) in
  {| total_authors_col := count_distinct (map (fun r => author_id (row_author r)) rows);
     total_posts_col := n_posts;
     total_engagements_col := n_eng;
     total_views_col := count_filter (engagement_has_type "view") rows;
     total_likes_col := count_filter (engagement_has_type "like") rows;
     total_comments_col := count_filter (engagement_has_type "comment") rows;
     total_shares_col := count_filter (engagement_has_type "share") rows;
     avg_engagement_per_post_col :=
       option_map (numeric_div_round2 n_eng) (NULLIF n_posts 0) |}.

End ExecutiveSummary.

(** An author without any post. *)
Definition without_posts (db : database) (a : author) : bool :=
  match filter (fun p => author_id a =? post_author_id p) (posts db) with
  | [] => true
  | _ => false
  end.

(** [SELECT COUNT( * ) FROM authors a JOIN posts p ON a.author_id =
    p.author_id JOIN engagements e ON p.post_id = e.post_id] of
    [verify_setup.test_database_connection]. *)
Definition joined_engagement_count (db : database) : Z :=
  count_filter
    (fun x : author * (post * engagement) =>
       (author_id (fst x) =? post_author_id (fst (snd x)))
       && (post_id (fst (snd x)) =? eng_post_id (snd (snd x))))
    (list_prod (authors db) (list_prod (posts db) (engagements db))).

(** The groups of [verify_setup.test_pandas_integration]: for an author
    name, [COUNT(p.post_id)] and [COUNT(e.engagement_id)] over the rows of
    the outer joins with that name (the rows of the result before
    [ORDER BY engagement_count DESC], one per distinct name). *)
Definition named (nm : string) (r : summary_row) : bool :=
  String.eqb (name (row_author r)) nm.

Definition has_post (r : summary_row) : bool :=
  match row_post r with
  | Some _ => true
  | None => false
  end.

Definition post_count (db : database) (nm : string) : Z :=
  count_filter has_post (filter (named nm) (summary_join db)).

Definition engagement_count (db : database) (nm : string) : Z :=
  count_filter
    (fun r => match row_engagement r with Some _ => true | None => false end)
    (filter (named nm) (summary_join db)).

(** The rows of the first outer join, for the authors of a name, whose
    post has no engagement. *)
Definition silent_posts (db : database) (nm : string) : Z :=
  count_filter
    (fun ap : author * option post =>
       String.eqb (name (fst ap)) nm
       && match snd ap with
          | Some p =>
              match filter (fun e => post_id p =? eng_post_id e) (engagements db) with
              | [] => true
              | _ => false
              end
          | None => false
          end)
    (author_left_join_posts db).

End Analysis.

(** ** The post generator of [src/database/generate_large_dataset.py] *)
Module PostLoader.
Import Py Db.
Local Open Scope py_scope.

Definition CATEGORIES : list string :=
  ["Tech"; "Lifestyle"; "Business"; "Health"; "Entertainment"; "Education"].

(** The rows as the INSERT statements of the generator list their
    columns. *)
Record author_row : Type := {
  ar_author_id : Z;
  ar_name : string;
  joined_date : Z;
  author_category : string
}.

Record post_row : Type := {
  pr_post_id : Z;
  pr_author_id : Z;
  category : string;
  pr_publish_timestamp : datetime;
  pr_title : string;
  content_length : Z;
  has_media : bool
}.

Record post_metadata_row : Type := {
  md_post_id : Z;
  tags : list string;
  is_promoted : bool;
  language : string
}.

(** The values one iteration of the loop of [generate_posts] draws. *)
Record post_draws : Type := {
  chosen_author : Z;             (* random.choice(author_ids) *)
  keep_author_category : bool;   (* random.random() > 0.2 *)
  chosen_category : string;      (* random.choice(CATEGORIES) *)
  hours : Z;                     (* random.choices(range(24), weights=...)[0] *)
  minutes : Z;                   (* random.randint(0, 59) *)
  day_offset : Z;                (* random.randint(0, 180) *)
  sentence : string;             (* fake.sentence(nb_words=6) *)
  drawn_content_length : Z;      (* random.randint(500, 3000) *)
  drawn_has_media : bool;        (* random.random() > 0.4 *)
  drawn_tags : list string;      (* [fake.word().capitalize() for _ in
                                    range(random.randint(1, 4))] *)
  drawn_is_promoted : bool       (* random.random() > 0.85 *)
}.

(** What [random] can return, given the ids of the authors table. *)
Definition possible_post (author_ids : list Z) (r : post_draws) : Prop :=
  In (chosen_author r) author_ids
  /\ In (chosen_category r) CATEGORIES
  /\ 0 <= hours r <= 23
  /\ 0 <= minutes r <= 59
  /\ 0 <= day_offset r <= 180
  /\ 500 <= drawn_content_length r <= 3000
  /\ (1 <= List.length (drawn_tags r) <= 4)%nat.

(** An exception of the loop: one of [datetime], or the [TypeError] of
    subscripting the [None] that [fetchone] returns for no row. *)
Inductive raised : Type :=
| Raised (e : exn)
| TypeError (msg : string).

(** The character ['.']. *)
Definition dot : Ascii.ascii := Ascii.Ascii false true true true false true false false.

(** [s.rstrip('.')] *)
Fixpoint rstrip_dot (s : string) : string :=
  match s with
  | EmptyString => EmptyString
  | String c rest =>
      match rstrip_dot rest with
      | EmptyString =>
          if Ascii.eqb c dot then EmptyString else String c EmptyString
      | stripped => String c stripped
      end
  end.

(** [n] dots. *)
Fixpoint dots (n : nat) : string :=
  match n with
  | O => EmptyString
  | S k => String dot (dots k)
  end.

(** The last character is a dot. *)
Fixpoint ends_with_dot (s : string) : bool :=
  match s with
  | EmptyString => false
  | String c EmptyString => Ascii.eqb c dot
  | String _ rest => ends_with_dot rest
  end.

(** [timedelta(days=d, hours=h, minutes=m)] on integers. *)
Definition timedelta_dhm (d h m : Z) : result timedelta :=
  let us := d * usec_per_day + h * usec_per_hour + m * 60000000 in
  if Z.abs (us / usec_per_day) <=? 999999999 then ret us
  else raise (OverflowError "days; must have magnitude <= 999999999").

(** The body of the loop of [generate_posts]: the rows inserted into
    posts and post_metadata for post id [i]. *)
Definition generate_post (authors : list author_row) (start_date : datetime)
  (i : Z) (r : post_draws) : raised + post_row * post_metadata_row :=
  let author_id := chosen_author r in
  match find (fun a => ar_author_id a =? author_id) authors with
  | None => inl (TypeError "'NoneType' object is not subscriptable")
  | Some a =>
      let author_cat := author_category a in
      let category := if keep_author_category r then author_cat
                      else chosen_category r in
      match (d <- timedelta_dhm (day_offset r) (hours r) (minutes r) ;;
             Generator.datetime_add start_date d) with
      | inl e => inl (Raised e)
      | inr publish_date =>
          let title := rstrip_dot (sentence r) in
          inr ({| pr_post_id := i;
                  pr_author_id := author_id;
                  category := category;
                  pr_publish_timestamp := publish_date;
                  pr_title := title;
                  content_length := drawn_content_length r;
                  has_media := drawn_has_media r |},
               {| md_post_id := i;
                  tags := drawn_tags r;
                  is_promoted := drawn_is_promoted r;
                  language := "en" |})
      end
  end.

(** [for i in range(104, num_posts + 104)] from id [i] on. *)
Fixpoint generate_posts_from (authors : list author_row) (start_date : datetime)
  (i : Z) (rs : list post_draws)
  : raised + list (post_row * post_metadata_row) :=
  match rs with
  | [] => inr []
  | r :: rs' =>
      match generate_post authors start_date i r with
      | inl e => inl e
      | inr row =>
          match generate_posts_from authors start_date (i + 1) rs' with
          | inl e => inl e
          | inr rows => inr (row :: rows)
          end
      end
  end.

(** The rows [generate_posts] inserts, [now] being the reading of
    [datetime.now()]: [start_date = now - timedelta(days=180)]. *)
Definition generate_posts (authors : list author_row) (now : datetime)
  (rs : list post_draws) : raised + list (post_row * post_metadata_row) :=
  match (d <- timedelta_days 180 ;; datetime_sub now d) with
  | inl e => inl (Raised e)
  | inr start_date => generate_posts_from authors start_date 104 rs
  end.


End PostLoader.

(** ** More concrete data *)
Module Sample.
Import Py Db Generator.

(** A post published in the last hour of year 9999. *)
Definition far : post :=
  {| Db.post_id := 103; post_author_id := 1; title := "Far";
     publish_timestamp := datetime_max - usec_per_hour |}.

(** [db0] with a row left by an earlier run of the generator and with the
    post [far]. *)
Definition db2 : database :=
  {| authors := authors Example.db0;
     posts := posts Example.db0 ++ [far];
     engagements :=
       engagements Example.db0 ++ [Example.eng 2500 "share" Example.now0] |}.

(** Draws for the post of Ada: two hours after publication, one more
    hour of adjustment. *)
Definition good : draws :=
  {| chosen_post := (101, Example.now0 - 10 * usec_per_day);
     engagement_type := "like"; chosen_user := Some 506;
     expovariate := 2 # 1; hour_adjustment := 1 |}.

(** Draws for the post [far]: two hours after its publication is past
    the last datetime. *)
Definition doomed : draws :=
  {| chosen_post := (103, datetime_max - usec_per_hour);
     engagement_type := "view"; chosen_user := None;
     expovariate := 2 # 1; hour_adjustment := 0 |}.

End Sample.

(** ** Concrete data for the post generator *)
Module PostSample.
Import Py Db Generator PostLoader.

Definition ada_row : author_row :=
  {| ar_author_id := 1; ar_name := "Ada"; joined_date := 738000;
     author_category := "Tech" |}.

(** The latest publication the generator can draw. *)
Definition latest : post_draws :=
  {| chosen_author := 1; keep_author_category := true;
     chosen_category := "Health"; hours := 23; minutes := 59; day_offset := 180;
     sentence := "Late breaking news..."; drawn_content_length := 500;
     drawn_has_media := true; drawn_tags := ["Alpha"];
     drawn_is_promoted := false |}.

(** The earliest one. *)
Definition earliest : post_draws :=
  {| chosen_author := 1; keep_author_category := false;
     chosen_category := "Health"; hours := 0; minutes := 0; day_offset := 0;
     sentence := "Old news."; drawn_content_length := 3000;
     drawn_has_media := false; drawn_tags := ["Beta"; "Gamma"];
     drawn_is_promoted := true |}.




End PostSample.

(** ** Facts on the error monad and on dates and durations *)
Import Py Db Api Props Generator Behaviour Loader Analysis PostLoader.

Lemma bind_inr {A B} (m : result A) (k : A -> result B) (b : B) :
  bind m k = inr b -> exists a, m = inr a /\ k a = inr b.
Proof.
  destruct m as [e | a]; simpl; intros H.
  - discriminate.
  - exists a; auto.
Qed.

Lemma try_except_inr {A} (body : result A) (a : A) :
  try_except body internal_error = inr a -> body = inr a.
Proof.
  destruct body as [e | x]; simpl; intros H.
  - discriminate.
  - exact H.
Qed.

Lemma timedelta_days_inr (n : Z) (d : timedelta) :
  timedelta_days n = inr d -> d = n * usec_per_day.
Proof.
  unfold timedelta_days. destruct (Z.abs n <=? 999999999); simpl; intros H.
  - now inversion H.
  - discriminate.
Qed.

Lemma datetime_sub_inr (t : datetime) (d : timedelta) (r : datetime) :
  datetime_sub t d = inr r -> r = t - d.
Proof.
  unfold datetime_sub.
  destruct ((0 <=? t - d) && (t - d <=? datetime_max)); simpl; intros H.
  - now inversion H.
  - discriminate.
Qed.

(** ** Facts on filters and counts *)

Lemma filter_filter {A} (f g : A -> bool) (l : list A) :
  filter f (filter g l) = filter (fun x => g x && f x) l.
Proof.
  induction l as [| a l IH]; simpl.
  - reflexivity.
  - destruct (g a); simpl.
    + destruct (f a); now rewrite IH.
    + exact IH.
Qed.

Lemma filter_all {A} (l : list A) : filter (fun _ => true) l = l.
Proof.
  induction l as [| a l IH]; simpl; congruence.
Qed.

Lemma map_fst_filter {A B} (p : A * B -> bool) (q : A -> bool) (l : list (A * B)) :
  map fst (filter (fun r => p r && q (fst r)) l)
  = filter q (map fst (filter p l)).
Proof.
  induction l as [| r l IH]; simpl.
  - reflexivity.
  - destruct (p r); simpl.
    + destruct (q (fst r)); simpl; now rewrite IH.
    + exact IH.
Qed.

Lemma count_filter_nonneg {A} (f : A -> bool) (l : list A) :
  0 <= count_filter f l.
Proof. unfold count_filter. lia. Qed.

Lemma count_filter_cons {A} (f : A -> bool) (a : A) (l : list A) :
  count_filter f (a :: l) = (if f a then 1 else 0) + count_filter f l.
Proof.
  unfold count_filter. simpl. destruct (f a); simpl List.length; lia.
Qed.

Lemma count_filter_filter {A} (f g : A -> bool) (l : list A) :
  count_filter f (filter g l) = count_filter (fun x => g x && f x) l.
Proof. unfold count_filter. now rewrite filter_filter. Qed.

Lemma count_filter_none {A} (f : A -> bool) (l : list A) :
  (forall a, In a l -> f a = false) -> count_filter f l = 0.
Proof.
  induction l as [| a l IH]; intros H.
  - reflexivity.
  - rewrite count_filter_cons, (H a (or_introl eq_refl)), IH.
    + reflexivity.
    + intros b Hb. apply H. now right.
Qed.

Lemma count_filter_some {A} (f : A -> bool) (l : list A) (a : A) :
  In a l -> f a = true -> 1 <= count_filter f l.
Proof.
  induction l as [| b l IH]; intros Hin Hf.
  - destruct Hin.
  - rewrite count_filter_cons. pose proof (count_filter_nonneg f l) as Hn.
    destruct Hin as [-> | Hin].
    + rewrite Hf. lia.
    + specialize (IH Hin Hf). destruct (f b); lia.
Qed.

(** Narrowing the WHERE clause can only lower a count. *)
Lemma count_filter_narrow {A} (f p : A -> bool) (l : list A) :
  count_filter f (filter p l) <= count_filter f l.
Proof.
  induction l as [| a l IH]; simpl.
  - lia.
  - destruct (p a); rewrite !count_filter_cons; destruct (f a); lia.
Qed.

(** ** Facts on GROUP BY date, ORDER BY date *)

Lemma insert_date_In (d x : Z) (l : list Z) :
  In x (insert_date d l) <-> x = d \/ In x l.
Proof.
  induction l as [| a l IH]; simpl.
  - intuition.
  - destruct (d <? a) eqn:Hlt; [simpl; intuition |].
    destruct (d =? a) eqn:Heq.
    + apply Z.eqb_eq in Heq. subst a. simpl. intuition.
    + simpl. rewrite IH. intuition.
Qed.

Lemma insert_date_HdRel (a d : Z) (l : list Z) :
  a < d -> HdRel Z.lt a l -> HdRel Z.lt a (insert_date d l).
Proof.
  intros Had H. destruct l as [| b l]; simpl.
  - now constructor.
  - inversion H; subst.
    destruct (d <? b); [now constructor |].
    destruct (d =? b); now constructor.
Qed.

Lemma insert_date_Sorted (d : Z) (l : list Z) :
  Sorted Z.lt l -> Sorted Z.lt (insert_date d l).
Proof.
  induction l as [| a l IH]; simpl; intros H.
  - repeat constructor.
  - destruct (d <? a) eqn:Hlt.
    + apply Z.ltb_lt in Hlt. constructor; [exact H | now constructor].
    + destruct (d =? a) eqn:Heq; [exact H |].
      apply Z.ltb_ge in Hlt. apply Z.eqb_neq in Heq.
      inversion H; subst.
      constructor; [now apply IH | apply insert_date_HdRel; [lia | assumption]].
Qed.

Lemma group_dates_Sorted (es : list engagement) : Sorted Z.lt (group_dates es).
Proof.
  induction es as [| e es IH]; simpl.
  - constructor.
  - now apply insert_date_Sorted.
Qed.

Lemma group_dates_In (es : list engagement) (d : Z) :
  In d (group_dates es) <-> exists e, In e es /\ DATE (engaged_timestamp e) = d.
Proof.
  induction es as [| e es IH]; simpl.
  - split; [intros [] | intros [e [[] _]]].
  - rewrite insert_date_In, IH. split.
    + intros [-> | [e' [Hin Hd]]]; [exists e | exists e']; auto.
    + intros [e' [[<- | Hin] Hd]]; [left | right; exists e']; auto.
Qed.

Lemma Sorted_lt_NoDup (l : list Z) : Sorted Z.lt l -> NoDup l.
Proof.
  intros H. apply Sorted_StronglySorted in H; [| exact Z.lt_trans].
  induction H as [| a l Hs IH Hall]; constructor; [| exact IH].
  intros Hin. rewrite Forall_forall in Hall. specialize (Hall a Hin). lia.
Qed.

Lemma group_dates_NoDup (es : list engagement) : NoDup (group_dates es).
Proof. apply Sorted_lt_NoDup, group_dates_Sorted. Qed.

Lemma daily_counts_dates (es : list engagement) :
  map date (daily_counts es) = group_dates es.
Proof.
  unfold daily_counts. rewrite map_map. simpl. apply map_id.
Qed.

Lemma Sorted_increasing_dates (period : list EngagementTrend) :
  Sorted Z.lt (map date period) -> increasing_dates period.
Proof.
  induction period as [| row rest IH]; simpl; intros H.
  - exact I.
  - inversion H as [| ? ? Hs Hhd]; subst. split; [| now apply IH].
    destruct rest as [| next rest']; [exact I |].
    simpl in Hhd. now inversion Hhd.
Qed.

Lemma on_date_iff (d : Z) (e : engagement) :
  on_date d e = true <-> DATE (engaged_timestamp e) = d.
Proof. unfold on_date. apply Z.eqb_eq. Qed.

Lemma total_trend_row (es : list engagement) (d : Z) :
  total (trend_row es d) = count_filter (on_date d) es.
Proof. simpl. unfold count_filter. now rewrite filter_all. Qed.


Lemma daily_counts_In (es : list engagement) (row : EngagementTrend) :
  In row (daily_counts es) ->
  row = trend_row es (date row) /\ In (date row) (group_dates es).
Proof.
  unfold daily_counts. rewrite in_map_iff. intros [d [<- Hd]]. simpl. auto.
Qed.

(** The rows dated [d] of a series over distinct dates. *)
Lemma counted_rows (es : list engagement) (ds : list Z) (d : Z) :
  NoDup ds ->
  counted (map (trend_row es) ds) d
  = if in_dec Z.eq_dec d ds then count_filter (on_date d) es else 0.
Proof.
  unfold counted. induction ds as [| a ds IH]; intros Hnd.
  - reflexivity.
  - inversion Hnd as [| ? ? Hnotin Hnd']; subst. specialize (IH Hnd').
    cbn [map filter]. change (date (trend_row es a)) with a.
    destruct (a =? d) eqn:Had.
    + apply Z.eqb_eq in Had. subst a. cbn [sum_total fold_right].
      fold (sum_total (filter (fun row => date row =? d) (map (trend_row es) ds))).
      rewrite IH, total_trend_row.
      destruct (in_dec Z.eq_dec d ds) as [Hin | _]; [contradiction |].
      destruct (in_dec Z.eq_dec d (d :: ds)) as [_ | Hout]; [lia |].
      exfalso. apply Hout. now left.
    + apply Z.eqb_neq in Had. rewrite IH.
      destruct (in_dec Z.eq_dec d ds) as [Hin | Hout];
        destruct (in_dec Z.eq_dec d (a :: ds)) as [Hin' | Hout']; try reflexivity.
      * exfalso. apply Hout'. now right.
      * destruct Hin' as [-> | Hin']; [lia | contradiction].
Qed.

Lemma counted_daily_counts (es : list engagement) (d : Z) :
  counted (daily_counts es) d = count_filter (on_date d) es.
Proof.
  unfold daily_counts. rewrite counted_rows by apply group_dates_NoDup.
  destruct (in_dec Z.eq_dec d (group_dates es)) as [Hin | Hout]; [reflexivity |].
  symmetry. apply count_filter_none. intros e He.
  destruct (on_date d e) eqn:Hd; [| reflexivity].
  exfalso. apply Hout, group_dates_In. exists e. split; [exact He |].
  now apply on_date_iff.
Qed.

Lemma sum_total_rows_skip (e : engagement) (es : list engagement) (ds : list Z) :
  ~ In (DATE (engaged_timestamp e)) ds ->
  sum_total (map (trend_row (e :: es)) ds) = sum_total (map (trend_row es) ds).
Proof.
  induction ds as [| a ds IH]; intros Hout.
  - reflexivity.
  - cbn [map sum_total fold_right].
    fold (sum_total (map (trend_row (e :: es)) ds)).
    fold (sum_total (map (trend_row es) ds)).
    rewrite IH by (intros Hin; apply Hout; now right).
    rewrite !total_trend_row, count_filter_cons.
    destruct (on_date a e) eqn:Hd; [| lia].
    exfalso. apply Hout. left. apply on_date_iff in Hd. auto.
Qed.

Lemma sum_total_rows_hit (e : engagement) (es : list engagement) (ds : list Z) :
  NoDup ds -> In (DATE (engaged_timestamp e)) ds ->
  sum_total (map (trend_row (e :: es)) ds) = 1 + sum_total (map (trend_row es) ds).
Proof.
  induction ds as [| a ds IH]; intros Hnd Hin.
  - destruct Hin.
  - inversion Hnd as [| ? ? Hnotin Hnd']; subst.
    cbn [map sum_total fold_right].
    fold (sum_total (map (trend_row (e :: es)) ds)).
    fold (sum_total (map (trend_row es) ds)).
    rewrite !total_trend_row, count_filter_cons.
    destruct (on_date a e) eqn:Hd.
    + apply on_date_iff in Hd. subst a.
      rewrite sum_total_rows_skip by exact Hnotin. lia.
    + destruct Hin as [Heq | Hin].
      * subst a. unfold on_date in Hd. rewrite Z.eqb_refl in Hd. discriminate.
      * rewrite IH by assumption. lia.
Qed.

Lemma sum_total_rows (es : list engagement) (ds : list Z) :
  NoDup ds ->
  (forall e, In e es -> In (DATE (engaged_timestamp e)) ds) ->
  sum_total (map (trend_row es) ds) = Z.of_nat (List.length es).
Proof.
  intros Hnd. induction es as [| e es IH]; intros Hcover.
  - clear Hcover Hnd. induction ds as [| a ds IH]; [reflexivity |].
    cbn [map sum_total fold_right].
    fold (sum_total (map (trend_row []) ds)). rewrite IH. reflexivity.
  - rewrite sum_total_rows_hit; [| exact Hnd | apply Hcover; now left].
    rewrite IH by (intros e' He'; apply Hcover; now right).
    simpl List.length. lia.
Qed.

(** The summed total of a series is the number of rows it was built from. *)
Lemma sum_total_daily_counts (es : list engagement) :
  sum_total (daily_counts es) = Z.of_nat (List.length es).
Proof.
  unfold daily_counts. apply sum_total_rows.
  - apply group_dates_NoDup.
  - intros e He. apply group_dates_In. now exists e.
Qed.


(** ** What a successful trend request returns *)

Lemma find_existsb {A} (f : A -> bool) (l : list A) :
  existsb f l = match find f l with Some _ => true | None => false end.
Proof.
  induction l as [| a l IH]; simpl.
  - reflexivity.
  - destruct (f a); simpl; auto.
Qed.

Lemma select_post_title_exists (db : database) (id : Z) :
  entity_exists db (Post id)
  = match select_post_title db id with Some _ => true | None => false end.
Proof.
  unfold entity_exists, select_post_title. rewrite find_existsb.
  now destruct (find _ _).
Qed.

Lemma select_author_name_exists (db : database) (id : Z) :
  entity_exists db (Author id)
  = match select_author_name db id with Some _ => true | None => false end.
Proof.
  unfold entity_exists, select_author_name. rewrite find_existsb.
  now destruct (find _ _).
Qed.

Lemma post_current_query_eq (db : database) (now : datetime) (id days : Z) :
  post_current_query db id (now - days * usec_per_day)
  = daily_counts (filter (in_window (in_current now days))
                    (entity_engagements db (Post id))).
Proof.
  unfold post_current_query, entity_engagements. rewrite filter_filter.
  reflexivity.
Qed.

Lemma post_previous_query_eq (db : database) (now : datetime) (id days : Z) :
  post_previous_query db id
    (now - days * usec_per_day - days * usec_per_day) (now - days * usec_per_day)
  = daily_counts (filter (in_window (in_previous now days))
                    (entity_engagements db (Post id))).
Proof.
  unfold post_previous_query, entity_engagements. rewrite filter_filter.
  f_equal. apply filter_ext. intros e.
  unfold post_previous_where, in_window, in_previous.
  replace (now - 2 * days * usec_per_day)
    with (now - days * usec_per_day - days * usec_per_day) by ring.
  now rewrite andb_assoc.
Qed.

Lemma author_current_query_eq (db : database) (now : datetime) (id days : Z) :
  author_current_query db id (now - days * usec_per_day)
  = daily_counts (filter (in_window (in_current now days))
                    (entity_engagements db (Author id))).
Proof.
  unfold author_current_query, entity_engagements.
  rewrite <- map_fst_filter. reflexivity.
Qed.

Lemma author_previous_query_eq (db : database) (now : datetime) (id days : Z) :
  author_previous_query db id
    (now - days * usec_per_day - days * usec_per_day) (now - days * usec_per_day)
  = daily_counts (filter (in_window (in_previous now days))
                    (entity_engagements db (Author id))).
Proof.
  unfold author_previous_query, entity_engagements.
  rewrite <- map_fst_filter. do 2 f_equal. apply filter_ext. intros r.
  unfold author_previous_where, in_window, in_previous.
  replace (now - 2 * days * usec_per_day)
    with (now - days * usec_per_day - days * usec_per_day) by ring.
  now rewrite andb_assoc.
Qed.

(** Unfolding of a request that returned a response. *)
Ltac run_handler H :=
  repeat match type of H with
    | try_except _ internal_error = inr _ => apply try_except_inr in H
    | bind (timedelta_days _) _ = inr _ =>
        let d := fresh "d" in let Hd := fresh "Hd" in
        apply bind_inr in H; destruct H as [d [Hd H]];
        apply timedelta_days_inr in Hd; subst d
    | bind (datetime_sub _ _) _ = inr _ =>
        let t := fresh "t" in let Ht := fresh "Ht" in
        apply bind_inr in H; destruct H as [t [Ht H]];
        apply datetime_sub_inr in Ht; subst t
    end.

Lemma trend_request_inr (db : database) (now : datetime) (ent : entity)
  (days : Z) (t : trends) :
  trend_request db now ent days = inr t ->
  entity_exists db ent = true
  /\ current t = daily_counts (filter (in_window (in_current now days))
                                (entity_engagements db ent))
  /\ previous t = daily_counts (filter (in_window (in_previous now days))
                                 (entity_engagements db ent))
  /\ exists x, percent_change (sum_total (current t)) (sum_total (previous t)) = inr x
               /\ change t = round2 x.
Proof.
  destruct ent as [id | id]; unfold trend_request; intros H;
    apply bind_inr in H; destruct H as [r [H Ht]]; inversion Ht; subst t; clear Ht;
    cbn [current previous change].
  - rewrite select_post_title_exists. unfold get_post_trends in H.
    apply try_except_inr in H.
    destruct (select_post_title db id) as [ttl |]; [| discriminate].
    run_handler H.
    apply bind_inr in H. destruct H as [x [Hx H]]. inversion H; subst r; clear H.
    cbn [current_period previous_period change_percent] in *.
    rewrite <- post_current_query_eq, <- post_previous_query_eq.
    repeat split. exists x. split; [exact Hx | reflexivity].
  - rewrite select_author_name_exists. unfold get_author_trends in H.
    apply try_except_inr in H.
    destruct (select_author_name db id) as [nm |]; [| discriminate].
    run_handler H.
    apply bind_inr in H. destruct H as [x [Hx H]]. inversion H; subst r; clear H.
    cbn [author_current_period author_previous_period author_change_percent] in *.
    rewrite <- author_current_query_eq, <- author_previous_query_eq.
    repeat split. exists x. split; [exact Hx | reflexivity].
Qed.

(** ** The trend endpoints *)

Lemma in_current_iff (now : datetime) (days : Z) (t : datetime) :
  in_current now days t = true <-> now - days * usec_per_day <= t.
Proof. unfold in_current. apply Z.leb_le. Qed.

Lemma in_previous_iff (now : datetime) (days : Z) (t : datetime) :
  in_previous now days t = true
  <-> now - 2 * days * usec_per_day <= t < now - days * usec_per_day.
Proof.
  unfold in_previous. rewrite andb_true_iff, Z.leb_le, Z.ltb_lt. tauto.
Qed.

Lemma sum_total_window (w : datetime -> bool) (es : list engagement) :
  sum_total (daily_counts (filter (in_window w) es)) = count_filter (in_window w) es.
Proof. apply sum_total_daily_counts. Qed.

Lemma counts_exactly_daily_counts (w : datetime -> bool) (es : list engagement) :
  counts_exactly (daily_counts (filter (in_window w) es)) w es.
Proof. intros d. apply counted_daily_counts. Qed.

(** C1, as the code has it: a successful trend request (post or author)
    with window size N days counts in [current_period] exactly the
    engagements of the entity dated at or after now - N, with no upper
    bound at now, and in [previous_period] exactly those dated in
    [now - 2N, now - N); every instant of the previous window precedes every
    instant of the current one, so the two do not overlap; the previous
    window lasts N days; and when no engagement of the entity is dated at
    or after now, the counts are those of the windows [now - N, now) and
    [now - 2N, now - N) of the specification. *)
Theorem trend_windows (db : database) (now : datetime) (ent : entity)
  (days : Z) (t : trends) :
  trend_request db now ent days = inr t ->
  let es := entity_engagements db ent in
  counts_exactly (current t) (in_current now days) es
  /\ counts_exactly (previous t) (in_previous now days) es
  /\ sum_total (current t) = count_filter (in_window (in_current now days)) es
  /\ sum_total (previous t) = count_filter (in_window (in_previous now days)) es
  /\ (forall a b, in_previous now days a = true -> in_current now days b = true ->
                  a < b)
  /\ (forall a, in_previous now days a = true -> in_current now days a = false)
  /\ (forall a, in_previous now days a = true <->
                now - 2 * days * usec_per_day <= a
                < now - 2 * days * usec_per_day + days * usec_per_day)
  /\ (forall b, in_current now days b = true <-> now - days * usec_per_day <= b)
  /\ ((forall e, In e es -> engaged_timestamp e < now) ->
      windows_as_stated db now ent days t).
Proof.
  intros H es. apply trend_request_inr in H.
  destruct H as [_ [Hc [Hp _]]]. fold es in Hc, Hp. rewrite Hc, Hp.
  split; [apply counts_exactly_daily_counts |].
  split; [apply counts_exactly_daily_counts |].
  split; [apply sum_total_window |].
  split; [apply sum_total_window |].
  split.
  { intros a b Ha Hb. apply in_previous_iff in Ha. apply in_current_iff in Hb. lia. }
  split.
  { intros a Ha. apply in_previous_iff in Ha. unfold in_current.
    apply Z.leb_gt. lia. }
  split.
  { intros a. rewrite in_previous_iff. lia. }
  split; [apply in_current_iff |].
  intros Hpast. unfold windows_as_stated. fold es. rewrite Hc, Hp.
  split; [| apply counts_exactly_daily_counts].
  intros d. rewrite counted_daily_counts. f_equal. apply filter_ext_in.
  intros e He. unfold in_window, in_current, in_current_as_stated.
  specialize (Hpast e He). apply Z.ltb_lt in Hpast. rewrite Hpast.
  now rewrite andb_true_r.
Qed.

(** The post of Ada, a week, at [now0]: the statement of [trend_windows]
    on a request that succeeds. *)
Lemma trend_windows_witness :
  exists t,
    trend_request Example.db0 Example.now0 (Post 101) 7 = inr t
    /\ sum_total (current t)
       = count_filter (in_window (in_current Example.now0 7))
           (entity_engagements Example.db0 (Post 101))
    /\ sum_total (current t) = 3.
Proof.
  eexists. split; [vm_compute; reflexivity |].
  split; [| reflexivity].
  apply (trend_windows Example.db0 Example.now0 (Post 101) 7).
  vm_compute; reflexivity.
Defined.

(** C1 as stated fails: the engagement dated one hour after [now0] is
    counted in [current_period], though it is not in [now - N, now). *)
Lemma trend_windows_as_stated_fails :
  exists t,
    trend_request Example.db0 Example.now0 (Post 101) 7 = inr t
    /\ ~ windows_as_stated Example.db0 Example.now0 (Post 101) 7 t.
Proof.
  eexists. split; [vm_compute; reflexivity |].
  intros [H _]. specialize (H 739251). vm_compute in H. discriminate H.
Qed.

(** C3: in every trend response (post or author), when the summed total
    of the previous window is 0 the returned change_percent is 0.0,
    whatever the total of the current window. *)
Theorem zero_previous_total (db : database) (now : datetime) (ent : entity)
  (days : Z) (t : trends) :
  trend_request db now ent days = inr t ->
  sum_total (previous t) = 0 ->
  change t = S754_zero false.
Proof.
  intros H Hzero. apply trend_request_inr in H.
  destruct H as [_ [_ [_ [x [Hx Hch]]]]].
  rewrite Hzero in Hx. unfold percent_change in Hx. simpl in Hx.
  inversion Hx; subst x. rewrite Hch. reflexivity.
Qed.

(** A one-day window at [now0]: three engagements in the current window,
    none in the previous one. *)
Lemma zero_previous_total_witness :
  exists t,
    trend_request Example.db0 Example.now0 (Author 1) 1 = inr t
    /\ sum_total (current t) = 3
    /\ sum_total (previous t) = 0
    /\ change t = S754_zero false.
Proof.
  eexists. split; [vm_compute; reflexivity |].
  split; [reflexivity |]. split; [reflexivity |].
  apply (zero_previous_total Example.db0 Example.now0 (Author 1) 1);
    [vm_compute; reflexivity | reflexivity].
Defined.





(** C10: in every successful trend response (post or author) the rows of
    current_period and those of previous_period are in strictly
    increasing date order. *)
Theorem trend_rows_increasing (db : database) (now : datetime) (ent : entity)
  (days : Z) (t : trends) :
  trend_request db now ent days = inr t ->
  increasing_dates (current t) /\ increasing_dates (previous t).
Proof.
  intros H. apply trend_request_inr in H. destruct H as [_ [Hc [Hp _]]].
  rewrite Hc, Hp.
  split; apply Sorted_increasing_dates; rewrite daily_counts_dates;
    apply group_dates_Sorted.
Qed.

Lemma trend_rows_increasing_witness :
  exists t,
    trend_request Example.db0 Example.now0 (Post 101) 7 = inr t
    /\ increasing_dates (current t) /\ increasing_dates (previous t).
Proof.
  eexists. split; [vm_compute; reflexivity |].
  apply (trend_rows_increasing Example.db0 Example.now0 (Post 101) 7).
  vm_compute; reflexivity.
Defined.

(** C2, what the code does: a trend request for a post or author that is
    not in the database raises the 404 inside the [try] block, the
    [except Exception] clause catches it, and the response is a 500 whose
    detail is the text of the 404. *)
Theorem missing_entity_response (db : database) (now : datetime) (ent : entity)
  (days : Z) :
  entity_exists db ent = false ->
  trend_request db now ent days
  = inl (HTTPException 500
           (StrOf (HTTPException 404
                     (Text match ent with
                           | Post _ => "Post not found"
                           | Author _ => "Author not found"
                           end))))
  /\ http_status (trend_request db now ent days) = 500.
Proof.
  intros H.
  assert (trend_request db now ent days
          = inl (HTTPException 500
                   (StrOf (HTTPException 404
                             (Text match ent with
                                   | Post _ => "Post not found"
                                   | Author _ => "Author not found"
                                   end))))) as E.
  { destruct ent as [id | id]; unfold trend_request.
    - rewrite select_post_title_exists in H. unfold get_post_trends.
      destruct (select_post_title db id); [discriminate | reflexivity].
    - rewrite select_author_name_exists in H. unfold get_author_trends.
      destruct (select_author_name db id); [discriminate | reflexivity]. }
  split; [exact E | now rewrite E].
Qed.

Lemma missing_entity_response_witness :
  entity_exists Example.db0 (Post 999) = false
  /\ http_status (get_post_trends Example.db0 Example.now0 999 7) = 500
  /\ http_status (trend_request Example.db0 Example.now0 (Post 999) 7) = 500.
Proof.
  split; [reflexivity |]. split; [reflexivity |].
  apply (missing_entity_response Example.db0 Example.now0 (Post 999) 7).
  reflexivity.
Defined.

(** ** The summary endpoint *)

Lemma or_zero_id (x : Z) : or_zero x = x.
Proof. unfold or_zero. destruct (x =? 0) eqn:E; [apply Z.eqb_eq in E |]; auto. Qed.

Lemma summary_inr (nd : Z -> Z -> Z) (db : database) (now : datetime) (days : Z)
  (r : SummaryMetrics) :
  get_analytics_summary nd db now days = inr r ->
  let res := summary_query nd db (now - days * usec_per_day) in
  r = {| total_authors := total_authors_col res;
         total_posts := total_posts_col res;
         total_engagements := total_engagements_col res;
         total_views := total_views_col res;
         total_likes := total_likes_col res;
         total_comments := total_comments_col res;
         total_shares := total_shares_col res;
         avg_engagement_per_post :=
           float_or_zero (avg_engagement_per_post_col res) |}.
Proof.
  unfold get_analytics_summary. intros H. run_handler H.
  inversion H. now rewrite !or_zero_id.
Qed.

Lemma non_null_In {A} (l : list (option A)) (a : A) :
  In a (non_null l) <-> In (Some a) l.
Proof.
  induction l as [| [b |] l IH]; simpl.
  - tauto.
  - rewrite IH. split; intros [H | H]; auto; left; congruence.
  - rewrite IH. split; [auto | intros [H | H]; [discriminate | auto]].
Qed.

Lemma non_null_narrow {A B} (f : A -> option B) (p : A -> bool) (l : list A) :
  (List.length (non_null (map f (filter p l)))
   <= List.length (non_null (map f l)))%nat.
Proof.
  induction l as [| a l IH]; simpl.
  - lia.
  - destruct (p a); simpl; destruct (f a); simpl; lia.
Qed.

Lemma count_distinct_incl (l1 l2 : list Z) :
  incl l1 l2 -> count_distinct l1 <= count_distinct l2.
Proof.
  intros H. unfold count_distinct. apply inj_le, NoDup_incl_length.
  - apply NoDup_nodup.
  - intros x Hx. apply nodup_In. apply H. now apply nodup_In in Hx.
Qed.

Lemma count_distinct_same (l1 l2 : list Z) :
  (forall x, In x l1 <-> In x l2) -> count_distinct l1 = count_distinct l2.
Proof.
  intros H. apply Z.le_antisymm; apply count_distinct_incl; intros x Hx;
    now apply H.
Qed.

Lemma count_distinct_narrow {A} (g : A -> Z) (p : A -> bool) (l : list A) :
  count_distinct (map g (filter p l)) <= count_distinct (map g l).
Proof.
  apply count_distinct_incl. intros x Hx. apply in_map_iff in Hx.
  destruct Hx as [a [<- Ha]]. apply filter_In in Ha. apply in_map. tauto.
Qed.

Lemma summary_where_earlier (s1 s2 : datetime) (r : summary_row) :
  s2 <= s1 -> summary_where s1 r = true -> summary_where s2 r = true.
Proof.
  unfold summary_where. destruct (snd (fst r)) as [p |]; [| auto].
  rewrite !Z.leb_le. lia.
Qed.

(** The rows kept for a later start date are among those kept for an
    earlier one. *)
Lemma summary_rows_narrow (s1 s2 : datetime) (l : list summary_row) :
  s2 <= s1 ->
  filter (summary_where s1) l = filter (summary_where s1) (filter (summary_where s2) l).
Proof.
  intros Hle. rewrite filter_filter. apply filter_ext. intros r.
  destruct (summary_where s1 r) eqn:H1.
  - now rewrite (summary_where_earlier s1 s2 r Hle H1).
  - now rewrite andb_false_r.
Qed.

(** C5: for a fixed database and a fixed clock reading, each count of the
    summary response - total_authors, total_posts, total_engagements,
    total_views, total_likes, total_comments, total_shares - is
    non-decreasing in the window parameter N. *)
Theorem summary_totals_monotone (nd : Z -> Z -> Z) (db : database)
  (now : datetime) (n1 n2 : Z) (r1 r2 : SummaryMetrics) :
  n1 <= n2 ->
  get_analytics_summary nd db now n1 = inr r1 ->
  get_analytics_summary nd db now n2 = inr r2 ->
  total_authors r1 <= total_authors r2
  /\ total_posts r1 <= total_posts r2
  /\ total_engagements r1 <= total_engagements r2
  /\ total_views r1 <= total_views r2
  /\ total_likes r1 <= total_likes r2
  /\ total_comments r1 <= total_comments r2
  /\ total_shares r1 <= total_shares r2.
Proof.
  intros Hle H1 H2. apply summary_inr in H1, H2. subst r1 r2.
  cbn [total_authors total_posts total_engagements total_views total_likes
       total_comments total_shares].
  unfold summary_query.
  cbn [total_authors_col total_posts_col total_engagements_col total_views_col
       total_likes_col total_comments_col total_shares_col].
  assert (now - n2 * usec_per_day <= now - n1 * usec_per_day) as Hs
      by (unfold usec_per_day; lia).
  rewrite (summary_rows_narrow _ _ (summary_join db) Hs).
  set (rows2 := filter (summary_where (now - n2 * usec_per_day)) (summary_join db)).
  split; [apply count_distinct_narrow |].
  split.
  { apply count_distinct_incl. intros x Hx. apply in_map_iff in Hx.
    destruct Hx as [p [<- Hp]]. apply in_map. apply non_null_In in Hp.
    apply non_null_In. apply in_map_iff in Hp. destruct Hp as [row [Hrow Hin]].
    apply filter_In in Hin. apply in_map_iff. exists row. tauto. }
  split; [apply inj_le, non_null_narrow |].
  repeat split; apply count_filter_narrow.
Qed.

(** A month and a year at [now0]: the old post of Cy enters the larger
    window. *)
Lemma summary_totals_monotone_witness :
  exists r1 r2,
    get_analytics_summary Example.round_half_up_div Example.db0 Example.now0 30 = inr r1
    /\ get_analytics_summary Example.round_half_up_div Example.db0 Example.now0 500 = inr r2
    /\ total_authors r1 = 2 /\ total_authors r2 = 3
    /\ total_authors r1 <= total_authors r2.
Proof.
  do 2 eexists. split; [vm_compute; reflexivity |].
  split; [vm_compute; reflexivity |].
  split; [reflexivity |]. split; [reflexivity |].
  apply (summary_totals_monotone Example.round_half_up_div Example.db0
           Example.now0 30 500).
  - lia.
  - vm_compute; reflexivity.
  - vm_compute; reflexivity.
Defined.

(** C7: in every summary response, when the number of distinct posts in
    the window is zero, avg_engagement_per_post is 0, and the quotient is
    not computed: the response is the same whatever the division routine
    of the database. *)
Theorem summary_average_guard (nd : Z -> Z -> Z) (db : database)
  (now : datetime) (days : Z) (r : SummaryMetrics) :
  get_analytics_summary nd db now days = inr r ->
  total_posts r = 0 ->
  avg_engagement_per_post r = S754_zero false
  /\ forall nd', get_analytics_summary nd' db now days = inr r.
Proof.
  intros H Hzero. pose proof (summary_inr _ _ _ _ _ H) as Hr. cbv zeta in Hr.
  assert (forall f, avg_engagement_per_post_col
                      (summary_query f db (now - days * usec_per_day)) = None) as Hnone.
  { intros f. rewrite Hr in Hzero. cbn [total_posts] in Hzero.
    unfold summary_query in *. cbn [total_posts_col] in Hzero.
    cbn [avg_engagement_per_post_col]. rewrite Hzero. reflexivity. }
  split.
  - rewrite Hr. cbn [avg_engagement_per_post]. rewrite Hnone. reflexivity.
  - intros nd'. rewrite <- H. unfold get_analytics_summary.
    destruct (timedelta_days days) as [e | d] eqn:Hd; [reflexivity |].
    apply timedelta_days_inr in Hd. subst d. cbn [bind].
    destruct (datetime_sub now (days * usec_per_day)) as [e | s] eqn:Hsub;
      [reflexivity |].
    apply datetime_sub_inr in Hsub. subst s. cbn [bind try_except ret].
    rewrite !Hnone. reflexivity.
Qed.

(** A window of one day at [now0]: only Bo, who has no post, is counted,
    and there is no post to average over. *)
Lemma summary_average_guard_witness :
  exists r,
    get_analytics_summary Example.round_half_up_div Example.db0 Example.now0 1 = inr r
    /\ total_authors r = 1 /\ total_posts r = 0
    /\ avg_engagement_per_post r = S754_zero false.
Proof.
  eexists. split; [vm_compute; reflexivity |].
  split; [reflexivity |]. split; [reflexivity |].
  apply (summary_average_guard Example.round_half_up_div Example.db0
           Example.now0 1).
  - vm_compute; reflexivity.
  - reflexivity.
Defined.

(** The rows of the outer joins. *)
Lemma author_left_join_posts_In (db : database) (a : author) (op : option post) :
  In (a, op) (author_left_join_posts db)
  <-> In a (authors db)
      /\ match op with
         | None => posts_of db a = []
         | Some p => In p (posts_of db a)
         end.
Proof.
  unfold author_left_join_posts. rewrite in_flat_map. split.
  - intros [a' [Ha' Hin]]. change (filter _ (posts db)) with (posts_of db a') in Hin.
    destruct (posts_of db a') as [| p ps] eqn:E.
    + destruct Hin as [Heq | []]. inversion Heq; subst. auto.
    + apply in_map_iff in Hin. destruct Hin as [p0 [Heq Hp0]].
      inversion Heq; subst. rewrite E. auto.
  - intros [Ha H]. exists a. split; [exact Ha |].
    change (filter _ (posts db)) with (posts_of db a).
    destruct op as [p |].
    + destruct (posts_of db a) as [| p0 ps]; [destruct H |].
      apply in_map_iff. exists p. auto.
    + rewrite H. now left.
Qed.

Lemma summary_join_In (db : database) (ap : author * option post) :
  In ap (author_left_join_posts db)
  <-> exists oe, In (ap, oe) (summary_join db).
Proof.
  unfold summary_join. split.
  - intros Hin. destruct ap as [a [p |]].
    + destruct (filter (fun e => Db.post_id p =? eng_post_id e) (engagements db))
        as [| e es] eqn:E.
      * exists None. apply in_flat_map. exists (a, Some p). split; [exact Hin |].
        cbn [snd fst]. rewrite E. now left.
      * exists (Some e). apply in_flat_map. exists (a, Some p).
        split; [exact Hin |]. cbn [snd fst]. rewrite E. now left.
    + exists None. apply in_flat_map. exists (a, None). split; [exact Hin |].
      now left.
  - intros [oe Hin]. apply in_flat_map in Hin. destruct Hin as [[a op] [Hap Hin]].
    cbn [snd fst] in Hin. destruct op as [p |].
    + destruct (filter (fun e => Db.post_id p =? eng_post_id e) (engagements db))
        as [| e es].
      * destruct Hin as [Heq | []]. inversion Heq; subst. exact Hap.
      * apply in_map_iff in Hin. destruct Hin as [e0 [Heq _]].
        inversion Heq; subst. exact Hap.
    + destruct Hin as [Heq | []]. inversion Heq; subst. exact Hap.
Qed.

Lemma counted_author_iff (db : database) (s : datetime) (a : author) :
  counted_author db s a = true
  <-> posts_of db a = []
      \/ exists p, In p (posts_of db a) /\ s <= publish_timestamp p.
Proof.
  unfold counted_author. destruct (posts_of db a) as [| p ps].
  - split; auto.
  - rewrite existsb_exists. split.
    + intros [q [Hq Hs]]. right. exists q. apply Z.leb_le in Hs. auto.
    + intros [Hnil | [q [Hq Hs]]]; [discriminate |].
      exists q. apply Z.leb_le in Hs. auto.
Qed.

(** C9: in every summary response total_authors is the number of distinct
    ids of the authors that have no post at all or have a post published
    at or after now - N; so an author without posts is counted, and an
    author all of whose posts were published before now - N is not. *)
Theorem summary_counts_authors (nd : Z -> Z -> Z) (db : database)
  (now : datetime) (days : Z) (r : SummaryMetrics) :
  get_analytics_summary nd db now days = inr r ->
  let start_date := now - days * usec_per_day in
  total_authors r
  = count_distinct
      (map Db.author_id (filter (counted_author db start_date) (authors db)))
  /\ (forall a, posts_of db a = [] -> counted_author db start_date a = true)
  /\ (forall a, posts_of db a <> [] ->
                (forall p, In p (posts_of db a) -> publish_timestamp p < start_date) ->
                counted_author db start_date a = false)
  /\ (forall row, summary_where start_date row = true <->
                  match row_post row with
                  | Some p => start_date <= publish_timestamp p
                  | None => True
                  end).
Proof.
  intros H start_date. apply summary_inr in H. subst r.
  cbn [total_authors]. unfold summary_query. cbn [total_authors_col].
  fold start_date. split; [| split; [| split]].
  - apply count_distinct_same. intros x. rewrite !in_map_iff. split.
    + intros [[[a op] oe] [Hx Hrow]]. apply filter_In in Hrow.
      destruct Hrow as [Hin Hw]. exists a. split; [exact Hx |].
      assert (In (a, op) (author_left_join_posts db)) as Hap
          by (apply summary_join_In; now exists oe).
      apply author_left_join_posts_In in Hap. destruct Hap as [Ha Hop].
      apply filter_In. split; [exact Ha |]. apply counted_author_iff.
      unfold summary_where in Hw. cbn [fst snd] in Hw.
      destruct op as [p |]; [right | left; exact Hop].
      exists p. apply Z.leb_le in Hw. auto.
    + intros [a [Hx Ha]]. apply filter_In in Ha. destruct Ha as [Ha Hc].
      apply counted_author_iff in Hc.
      assert (exists op, In (a, op) (author_left_join_posts db)
                         /\ forall oe, summary_where start_date (a, op, oe) = true)
        as [op [Hap Hw]].
      { destruct Hc as [Hnil | [p [Hp Hs]]].
        - exists None. split; [| reflexivity].
          apply author_left_join_posts_In. auto.
        - exists (Some p). split.
          + apply author_left_join_posts_In. auto.
          + intros oe. unfold summary_where. cbn [fst snd]. now apply Z.leb_le. }
      apply summary_join_In in Hap. destruct Hap as [oe Hin].
      exists (a, op, oe). split; [exact Hx |]. apply filter_In. auto.
  - intros a Hnil. apply counted_author_iff. now left.
  - intros a Hsome Hold. destruct (counted_author db start_date a) eqn:Hc;
      [| reflexivity].
    apply counted_author_iff in Hc. destruct Hc as [Hnil | [p [Hp Hs]]].
    + contradiction.
    + specialize (Hold p Hp). lia.
  - intros row. unfold summary_where, row_post.
    destruct (snd (fst row)) as [p |]; [apply Z.leb_le | tauto].
Qed.

(** A month at [now0]: Ada (a recent post) and Bo (no post) are counted,
    Cy (one post, 400 days old) is not. *)
Lemma summary_counts_authors_witness :
  exists r,
    get_analytics_summary Example.round_half_up_div Example.db0 Example.now0 30 = inr r
    /\ total_authors r = 2
    /\ counted_author Example.db0 (Example.now0 - 30 * usec_per_day) Example.bo = true
    /\ counted_author Example.db0 (Example.now0 - 30 * usec_per_day) Example.cy = false
    /\ total_authors r
       = count_distinct
           (map Db.author_id
              (filter (counted_author Example.db0 (Example.now0 - 30 * usec_per_day))
                 (authors Example.db0))).
Proof.
  eexists. split; [vm_compute; reflexivity |].
  split; [reflexivity |]. split; [reflexivity |]. split; [reflexivity |].
  apply (summary_counts_authors Example.round_half_up_div Example.db0
           Example.now0 30).
  vm_compute; reflexivity.
Defined.

(** ** The engagement generator *)

Lemma div_half_even_nonneg (n d : Z) :
  0 <= n -> 0 < d -> 0 <= div_half_even n d.
Proof.
  intros Hn Hd. unfold div_half_even. cbv zeta.
  assert (0 <= n / d) by (apply Z.div_pos; lia).
  destruct (2 * (n mod d) ?= d); try lia.
  destruct (Z.even (n / d)); lia.
Qed.

Lemma div_half_even_upper (n d k : Z) :
  0 < d -> n <= k * d -> div_half_even n d <= k.
Proof.
  intros Hd Hn. unfold div_half_even. cbv zeta.
  pose proof (Z.div_mod n d ltac:(lia)) as Hdm.
  pose proof (Z.mod_pos_bound n d Hd) as Hr.
  assert (n / d <= k) as Hq by (apply Z.div_le_upper_bound; lia).
  destruct (Z.eq_dec (n / d) k) as [Heq | Hne].
  - assert (n mod d = 0) as Hz by nia.
    rewrite Hz. change (2 * 0) with 0. destruct (Z.compare_spec 0 d); lia.
  - destruct (2 * (n mod d) ?= d); try lia.
    destruct (Z.even (n / d)); lia.
Qed.

Lemma cap_hours_bounds (h : Q) :
  (0 <= h)%Q -> (0 <= cap_hours h)%Q /\ (cap_hours h <= 720)%Q.
Proof.
  intros H. unfold cap_hours. destruct (Qle_bool h 720) eqn:E.
  - apply Qle_bool_iff in E. auto.
  - split; [discriminate | apply Qle_refl].
Qed.

Lemma timedelta_hours_bounds (h : Q) :
  (0 <= h)%Q -> (h <= 720)%Q ->
  0 <= timedelta_hours h <= 720 * usec_per_hour.
Proof.
  unfold Qle, timedelta_hours. destruct h as [n d]. cbn [Qnum Qden].
  intros H0 H720. split.
  - apply div_half_even_nonneg; unfold usec_per_hour; lia.
  - apply div_half_even_upper; unfold usec_per_hour; lia.
Qed.

Lemma datetime_add_inr (t : datetime) (d : timedelta) (r : datetime) :
  datetime_add t d = inr r -> r = t + d.
Proof.
  unfold datetime_add.
  destruct ((0 <=? t + d) && (t + d <=? datetime_max)); simpl; intros H.
  - now inversion H.
  - discriminate.
Qed.

(** What the loop body guarantees: the row is dated from three hours
    before the publication of its post to 723 hours after it. *)
Lemma generated_lag_bounds (posts : list (Z * datetime)) (i : Z) (r : draws)
  (e : engagement) :
  possible posts r ->
  generate_engagement i r = inr e ->
  In (eng_post_id e, snd (chosen_post r)) posts
  /\ snd (chosen_post r) - 3 * usec_per_hour <= engaged_timestamp e
     <= snd (chosen_post r) + 723 * usec_per_hour.
Proof.
  intros [Hpost [_ [Hexp Hadj]]] H. unfold generate_engagement in H.
  destruct (chosen_post r) as [pid pub] eqn:Hc. cbn [snd].
  apply bind_inr in H. destruct H as [t1 [H1 H]].
  apply bind_inr in H. destruct H as [t2 [H2 H]].
  apply datetime_add_inr in H1, H2. inversion H; subst e; clear H.
  cbn [eng_post_id engaged_timestamp]. split; [exact Hpost |].
  destruct (cap_hours_bounds _ Hexp) as [Hlo Hhi].
  pose proof (timedelta_hours_bounds _ Hlo Hhi) as Hb.
  subst t2 t1. unfold usec_per_hour in *. lia.
Qed.


(** ** When the handlers answer *)

Lemma timedelta_days_ok (n : Z) :
  Z.abs n <= 999999999 -> timedelta_days n = inr (n * usec_per_day).
Proof.
  intros H. unfold timedelta_days. apply Z.leb_le in H. now rewrite H.
Qed.

Lemma datetime_sub_ok (t : datetime) (d : timedelta) :
  0 <= t - d <= datetime_max -> datetime_sub t d = inr (t - d).
Proof.
  intros [H1 H2]. unfold datetime_sub.
  apply Z.leb_le in H1, H2. now rewrite H1, H2.
Qed.

Lemma percent_change_total (c p : Z) :
  (exists x, percent_change c p = inr x)
  \/ percent_change c p
     = inl (OverflowError "integer division result too large for a float").
Proof.
  unfold percent_change. destruct (0 <? p) eqn:Hp.
  - apply Z.ltb_lt in Hp. unfold int_truediv.
    destruct (p =? 0) eqn:Hz; [apply Z.eqb_eq in Hz; lia |].
    destruct (SFdiv prec emax (exact_int (c - p)) (exact_int p));
      cbn [bind ret raise]; eauto.
  - left. eexists. reflexivity.
Qed.

(** A summary request answers as soon as the start date is a datetime. *)
Lemma summary_request_total (nd : Z -> Z -> Z) (db : database)
  (now : datetime) (days : Z) :
  Z.abs days <= 999999999 ->
  0 <= now - days * usec_per_day <= datetime_max ->
  exists r, get_analytics_summary nd db now days = inr r.
Proof.
  intros Hd Hs. unfold get_analytics_summary.
  rewrite (timedelta_days_ok _ Hd). cbn [bind].
  rewrite (datetime_sub_ok _ _ Hs). cbn [bind try_except ret].
  eexists. reflexivity.
Qed.

(** A trend request for an entity of the database answers as soon as the
    two start dates are datetimes, unless the quotient of the totals is
    beyond the floats. *)
Lemma trend_request_total (db : database) (now : datetime) (ent : entity)
  (days : Z) :
  entity_exists db ent = true ->
  Z.abs days <= 999999999 ->
  0 <= now - days * usec_per_day <= datetime_max ->
  0 <= now - days * usec_per_day - days * usec_per_day <= datetime_max ->
  (exists t, trend_request db now ent days = inr t)
  \/ trend_request db now ent days
     = inl (HTTPException 500
              (StrOf (OverflowError "integer division result too large for a float"))).
Proof.
  intros He Hd Hc Hp. destruct ent as [id | id]; unfold trend_request.
  - rewrite select_post_title_exists in He. unfold get_post_trends.
    destruct (select_post_title db id) as [ttl |]; [| discriminate].
    rewrite (timedelta_days_ok _ Hd). cbn [bind].
    rewrite (datetime_sub_ok _ _ Hc). cbn [bind].
    rewrite (datetime_sub_ok _ _ Hp). cbn [bind].
    match goal with
    | |- context [percent_change ?c ?p] =>
        destruct (percent_change_total c p) as [[x Hx] | Hx]; rewrite Hx
    end.
    + left. eexists. reflexivity.
    + right. reflexivity.
  - rewrite select_author_name_exists in He. unfold get_author_trends.
    destruct (select_author_name db id) as [nm |]; [| discriminate].
    rewrite (timedelta_days_ok _ Hd). cbn [bind].
    rewrite (datetime_sub_ok _ _ Hc). cbn [bind].
    rewrite (datetime_sub_ok _ _ Hp). cbn [bind].
    match goal with
    | |- context [percent_change ?c ?p] =>
        destruct (percent_change_total c p) as [[x Hx] | Hx]; rewrite Hx
    end.
    + left. eexists. reflexivity.
    + right. reflexivity.
Qed.

(** ** Statuses and date ranges of the handlers *)




Lemma timedelta_days_cases (n : Z) :
  ((Z.abs n <=? 999999999) = true /\ timedelta_days n = inr (n * usec_per_day))
  \/ ((Z.abs n <=? 999999999) = false /\ exists m, timedelta_days n = inl (OverflowError m)).
Proof.
  unfold timedelta_days. destruct (Z.abs n <=? 999999999); [left | right]; eauto.
Qed.

Lemma datetime_sub_cases (t : datetime) (d : timedelta) :
  ((0 <=? t - d) && (t - d <=? datetime_max) = true
   /\ datetime_sub t d = inr (t - d))
  \/ ((0 <=? t - d) && (t - d <=? datetime_max) = false
      /\ exists m, datetime_sub t d = inl (OverflowError m)).
Proof.
  unfold datetime_sub.
  destruct ((0 <=? t - d) && (t - d <=? datetime_max)); [left | right]; eauto.
Qed.

(** X2: the summary endpoint answers exactly when [days] has magnitude at
    most 999999999 and now - days is a datetime (year 1 to 9999); in every
    other case the response is a 500 that carries an OverflowError. *)
Theorem summary_answers_iff_date_ok (nd : Z -> Z -> Z) (db : database)
  (now : datetime) (days : Z) :
  (summary_date_ok now days = true ->
   exists r, get_analytics_summary nd db now days = inr r)
  /\ (summary_date_ok now days = false ->
      exists m, get_analytics_summary nd db now days
                = inl (HTTPException 500 (StrOf (OverflowError m)))).
Proof.
  unfold summary_date_ok, get_analytics_summary.
  destruct (timedelta_days_cases days) as [[Hb Hd] | [Hb [m Hd]]]; rewrite Hb, Hd.
  - cbn [bind andb].
    destruct (datetime_sub_cases now (days * usec_per_day))
      as [[Hr Hs] | [Hr [m Hs]]]; rewrite Hr, Hs.
    + split; [intros _; eexists; reflexivity | discriminate].
    + split; [discriminate | intros _; exists m; reflexivity].
  - split; [discriminate | intros _; exists m; reflexivity].
Qed.

(** A month answers; three million days reach before year 1; 10^9 days
    are refused by timedelta. *)
Lemma summary_answers_iff_date_ok_witness :
  (exists r, get_analytics_summary Example.round_half_up_div Example.db0
               Example.now0 30 = inr r)
  /\ (exists m, get_analytics_summary Example.round_half_up_div Example.db0
                  Example.now0 3000000
                = inl (HTTPException 500 (StrOf (OverflowError m))))
  /\ (exists m, get_analytics_summary Example.round_half_up_div Example.db0
                  Example.now0 1000000000
                = inl (HTTPException 500 (StrOf (OverflowError m)))).
Proof.
  split; [| split].
  - apply (summary_answers_iff_date_ok Example.round_half_up_div Example.db0
             Example.now0 30). reflexivity.
  - apply (summary_answers_iff_date_ok Example.round_half_up_div Example.db0
             Example.now0 3000000). reflexivity.
  - apply (summary_answers_iff_date_ok Example.round_half_up_div Example.db0
             Example.now0 1000000000). reflexivity.
Defined.

(** X3: a trend request for an entity of the database answers only when
    [days] has magnitude at most 999999999 and both now - days and
    now - 2 days are datetimes; otherwise the response is a 500 that
    carries an OverflowError, even though the entity exists. *)
Theorem trend_needs_dates_ok (db : database) (now : datetime) (ent : entity)
  (days : Z) :
  entity_exists db ent = true ->
  (forall t, trend_request db now ent days = inr t -> trend_dates_ok now days = true)
  /\ (trend_dates_ok now days = false ->
      exists m, trend_request db now ent days
                = inl (HTTPException 500 (StrOf (OverflowError m)))).
Proof.
  intros He.
  assert (trend_dates_ok now days = false ->
          exists m, trend_request db now ent days
                    = inl (HTTPException 500 (StrOf (OverflowError m)))) as Hfail.
  { unfold trend_dates_ok, summary_date_ok. intros Hno.
    destruct ent as [id | id]; unfold trend_request.
    - rewrite select_post_title_exists in He. unfold get_post_trends.
      destruct (select_post_title db id) as [ttl |]; [| discriminate].
      destruct (timedelta_days_cases days) as [[Hb Hd] | [Hb [m Hd]]];
        rewrite Hd; [| exists m; reflexivity].
      cbn [bind].
      destruct (datetime_sub_cases now (days * usec_per_day))
        as [[Hr Hs] | [Hr [m Hs]]]; rewrite Hs; [| exists m; reflexivity].
      cbn [bind].
      destruct (datetime_sub_cases (now - days * usec_per_day) (days * usec_per_day))
        as [[Hr' Hs'] | [Hr' [m Hs']]]; rewrite Hs'; [| exists m; reflexivity].
      exfalso. apply andb_true_iff in Hr, Hr'.
      destruct Hr as [H1 H2]. destruct Hr' as [H3 H4].
      rewrite Hb, H1, H2, H3, H4 in Hno. discriminate.
    - rewrite select_author_name_exists in He. unfold get_author_trends.
      destruct (select_author_name db id) as [nm |]; [| discriminate].
      destruct (timedelta_days_cases days) as [[Hb Hd] | [Hb [m Hd]]];
        rewrite Hd; [| exists m; reflexivity].
      cbn [bind].
      destruct (datetime_sub_cases now (days * usec_per_day))
        as [[Hr Hs] | [Hr [m Hs]]]; rewrite Hs; [| exists m; reflexivity].
      cbn [bind].
      destruct (datetime_sub_cases (now - days * usec_per_day) (days * usec_per_day))
        as [[Hr' Hs'] | [Hr' [m Hs']]]; rewrite Hs'; [| exists m; reflexivity].
      exfalso. apply andb_true_iff in Hr, Hr'.
      destruct Hr as [H1 H2]. destruct Hr' as [H3 H4].
      rewrite Hb, H1, H2, H3, H4 in Hno. discriminate. }
  split; [| exact Hfail].
  intros t Ht. destruct (trend_dates_ok now days) eqn:E; [reflexivity |].
  destruct (Hfail eq_refl) as [m Hm]. rewrite Hm in Ht. discriminate.
Qed.

(** The post of Ada exists; 400000 days put the previous window before
    year 1 although the current one starts in year 929. *)
Lemma trend_needs_dates_ok_witness :
  summary_date_ok Example.now0 400000 = true
  /\ exists m, trend_request Example.db0 Example.now0 (Post 101) 400000
               = inl (HTTPException 500 (StrOf (OverflowError m))).
Proof.
  split; [reflexivity |].
  apply (trend_needs_dates_ok Example.db0 Example.now0 (Post 101) 400000);
    reflexivity.
Defined.

(** ** The rows and the change of a trend response *)

Lemma type_counts_one (e : engagement) :
  (if has_type "view" e then 1 else 0) + (if has_type "like" e then 1 else 0)
  + (if has_type "comment" e then 1 else 0) + (if has_type "share" e then 1 else 0)
  <= 1.
Proof.
  unfold has_type.
  destruct (String.eqb (type e) "view") eqn:Hv;
    [apply String.eqb_eq in Hv; rewrite Hv; simpl; lia |].
  destruct (String.eqb (type e) "like") eqn:Hl;
    [apply String.eqb_eq in Hl; rewrite Hl; simpl; lia |].
  destruct (String.eqb (type e) "comment") eqn:Hc;
    [apply String.eqb_eq in Hc; rewrite Hc; simpl; lia |].
  destruct (String.eqb (type e) "share"); lia.
Qed.

Lemma type_counts_known (e : engagement) :
  In (type e) engagement_types ->
  (if has_type "view" e then 1 else 0) + (if has_type "like" e then 1 else 0)
  + (if has_type "comment" e then 1 else 0) + (if has_type "share" e then 1 else 0)
  = 1.
Proof.
  unfold has_type, engagement_types.
  intros [H | [H | [H | [H | []]]]]; rewrite <- H; reflexivity.
Qed.

Lemma group_type_counts (g : list engagement) :
  count_filter (has_type "view") g + count_filter (has_type "like") g
  + count_filter (has_type "comment") g + count_filter (has_type "share") g
  <= count_filter (fun _ => true) g
  /\ ((forall e, In e g -> In (type e) engagement_types) ->
      count_filter (has_type "view") g + count_filter (has_type "like") g
      + count_filter (has_type "comment") g + count_filter (has_type "share") g
      = count_filter (fun _ => true) g).
Proof.
  induction g as [| e g [IHle IHeq]].
  - split; [cbn; lia | intros _; reflexivity].
  - rewrite !count_filter_cons. pose proof (type_counts_one e) as H1. split.
    + lia.
    + intros Hall. pose proof (type_counts_known e (Hall e (or_introl eq_refl))).
      assert (forall x, In x g -> In (type x) engagement_types) as Hg
          by (intros x Hx; apply Hall; now right).
      specialize (IHeq Hg). lia.
Qed.

Lemma daily_counts_row_types (es : list engagement) (row : EngagementTrend) :
  In row (daily_counts es) ->
  0 <= views row /\ 0 <= likes row /\ 0 <= comments row /\ 0 <= shares row
  /\ views row + likes row + comments row + shares row <= total row
  /\ ((forall e, In e es -> In (type e) engagement_types) ->
      views row + likes row + comments row + shares row = total row).
Proof.
  intros Hin. apply daily_counts_In in Hin. destruct Hin as [-> _].
  cbn [views likes comments shares total trend_row].
  destruct (group_type_counts (filter (on_date (date row)) es)) as [Hle Heq].
  repeat split; try apply count_filter_nonneg; [exact Hle |].
  intros Hall. apply Heq. intros e He. apply filter_In in He. apply Hall, He.
Qed.

(** X4: in every row of a trend response the four per-type counts are
    non-negative and add up to at most the row total; they add up to
    exactly the total when every engagement of the entity is a view, like,
    comment or share. *)
Theorem trend_row_type_counts (db : database) (now : datetime) (ent : entity)
  (days : Z) (t : trends) (row : EngagementTrend) :
  trend_request db now ent days = inr t ->
  In row (current t ++ previous t) ->
  0 <= views row /\ 0 <= likes row /\ 0 <= comments row /\ 0 <= shares row
  /\ views row + likes row + comments row + shares row <= total row
  /\ ((forall e, In e (entity_engagements db ent) -> In (type e) engagement_types) ->
      views row + likes row + comments row + shares row = total row).
Proof.
  intros H Hin. apply trend_request_inr in H. destruct H as [_ [Hc [Hp _]]].
  rewrite Hc, Hp in Hin. apply in_app_or in Hin.
  destruct Hin as [Hin | Hin]; apply daily_counts_row_types in Hin;
    destruct Hin as [H1 [H2 [H3 [H4 [H5 H6]]]]];
    repeat split; auto; intros Hall; apply H6; intros e He;
    apply filter_In in He; apply Hall, He.
Qed.

Lemma trend_row_type_counts_witness :
  exists t row,
    trend_request Example.db0 Example.now0 (Post 101) 7 = inr t
    /\ In row (current t ++ previous t)
    /\ views row = 1 /\ likes row = 1 /\ total row = 2
    /\ views row + likes row + comments row + shares row <= total row.
Proof.
  do 2 eexists. split; [vm_compute; reflexivity |].
  split; [left; reflexivity |].
  split; [reflexivity |]. split; [reflexivity |]. split; [reflexivity |].
  refine (proj1 (proj2 (proj2 (proj2 (proj2
            (trend_row_type_counts Example.db0 Example.now0 (Post 101) 7
               _ _ _ _)))))).
  - vm_compute; reflexivity.
  - left; reflexivity.
Defined.

Lemma filter_none {A} (f : A -> bool) (l : list A) :
  (forall a, In a l -> f a = false) -> filter f l = [].
Proof.
  induction l as [| a l IH]; intros H; [reflexivity |].
  cbn [filter]. rewrite (H a (or_introl eq_refl)). apply IH.
  intros b Hb. apply H. now right.
Qed.

(** X5: [days] is not validated; a trend request with [days <= 0] that
    answers has an empty previous_period and change_percent 0.0, since
    the previous window [now - 2 days, now - days) is empty. *)
Theorem nonpositive_days_previous_empty (db : database) (now : datetime)
  (ent : entity) (days : Z) (t : trends) :
  trend_request db now ent days = inr t ->
  days <= 0 ->
  previous t = [] /\ change t = S754_zero false.
Proof.
  intros H Hd. apply trend_request_inr in H.
  destruct H as [_ [_ [Hp [x [Hx Hch]]]]].
  assert (previous t = []) as Hnil.
  { rewrite Hp, filter_none; [reflexivity |].
    intros e _. unfold in_window, in_previous. apply andb_false_iff.
    destruct (engaged_timestamp e <? now - days * usec_per_day) eqn:E;
      [left | now right].
    apply Z.ltb_lt in E. apply Z.leb_gt. unfold usec_per_day in *. lia. }
  split; [exact Hnil |].
  rewrite Hnil in Hx. cbn in Hx. inversion Hx; subst x. rewrite Hch. reflexivity.
Qed.

(** [days = 0] at [now0]: only the engagement dated after [now0] is in
    the current period. *)
Lemma nonpositive_days_previous_empty_witness :
  exists t,
    trend_request Example.db0 Example.now0 (Post 101) 0 = inr t
    /\ sum_total (current t) = 1
    /\ previous t = [] /\ change t = S754_zero false.
Proof.
  eexists. split; [vm_compute; reflexivity |]. split; [reflexivity |].
  apply (nonpositive_days_previous_empty Example.db0 Example.now0 (Post 101) 0).
  - vm_compute; reflexivity.
  - lia.
Defined.

(** ** Landmark values of change_percent *)

Lemma div_eucl_shift (p : positive) :
  Z.div_eucl (Z.shiftl (Zpos p) 53) (Zpos p) = (9007199254740992, 0).
Proof.
  rewrite Z.shiftl_mul_pow2 by lia.
  pose proof (Z_div_mult_full (2 ^ 53) (Zpos p) ltac:(lia)) as Hq.
  pose proof (Z_mod_mult (2 ^ 53) (Zpos p)) as Hr.
  rewrite (Z.mul_comm (Zpos p)).
  unfold Z.div, Z.modulo in Hq, Hr.
  destruct (Z.div_eucl (2 ^ 53 * Zpos p) (Zpos p)) as [q r].
  subst q r. reflexivity.
Qed.

Lemma new_location_exact (n : Z) : new_location n 0 = loc_Exact.
Proof. unfold new_location. destruct (Z.even n); reflexivity. Qed.

Lemma SFdiv_self (s : bool) (p : positive) :
  SFdiv prec emax (S754_finite s p 0) (S754_finite false p 0)
  = S754_finite s 4503599627370496 (-52).
Proof.
  cbv [SFdiv SFdiv_core_binary Zdigits2].
  rewrite !Z.add_0_r, !Z.sub_diag.
  change (IntDef.Z.min (fexp prec emax 0) 0) with (-53).
  change (0 - -53) with 53.
  cbv iota. rewrite div_eucl_shift, new_location_exact.
  destruct s; vm_compute; reflexivity.
Qed.

Lemma int_truediv_self (p : Z) : 0 < p -> int_truediv p p = inr (float_of_int 1).
Proof.
  intros H. destruct p as [| p | p]; try lia.
  unfold int_truediv. cbn [Z.eqb exact_int]. rewrite SFdiv_self. reflexivity.
Qed.

Lemma int_truediv_opp_self (p : Z) : 0 < p -> int_truediv (- p) p = inr (float_of_int (-1)).
Proof.
  intros H. destruct p as [| p | p]; try lia.
  unfold int_truediv. cbn [Z.eqb exact_int Z.opp]. rewrite SFdiv_self. reflexivity.
Qed.

Lemma int_truediv_zero (p : Z) : 0 < p -> int_truediv 0 p = inr (S754_zero false).
Proof.
  intros H. destruct p as [| p | p]; try lia. reflexivity.
Qed.

(** X6: in a trend response whose previous total P is positive,
    change_percent is exactly 0.0 when the current total equals P, -100.0
    when the current total is 0, and 100.0 when the current total is 2P,
    whatever the size of P: the float division is exact in these cases. *)
Theorem change_percent_landmarks (db : database) (now : datetime) (ent : entity)
  (days : Z) (t : trends) :
  trend_request db now ent days = inr t ->
  0 < sum_total (previous t) ->
  (sum_total (current t) = sum_total (previous t) -> change t = S754_zero false)
  /\ (sum_total (current t) = 0 -> change t = float_of_int (-100))
  /\ (sum_total (current t) = 2 * sum_total (previous t) ->
      change t = float_of_int 100).
Proof.
  intros H Hpos. apply trend_request_inr in H.
  destruct H as [_ [_ [_ [x [Hx Hch]]]]].
  unfold percent_change in Hx.
  pose proof Hpos as Hb. apply Z.ltb_lt in Hb. rewrite Hb in Hx.
  split; [| split]; intros HC; rewrite HC in Hx.
  - rewrite Z.sub_diag, (int_truediv_zero _ Hpos) in Hx.
    inversion Hx; subst x. rewrite Hch. reflexivity.
  - rewrite Z.sub_0_l, (int_truediv_opp_self _ Hpos) in Hx.
    inversion Hx; subst x. rewrite Hch. vm_compute. reflexivity.
  - replace (2 * sum_total (previous t) - sum_total (previous t))
      with (sum_total (previous t)) in Hx by lia.
    rewrite (int_truediv_self _ Hpos) in Hx.
    inversion Hx; subst x. rewrite Hch. vm_compute. reflexivity.
Qed.

(** Ten days after [now0], a week: nothing in the current window, three
    engagements in the previous one. *)
Lemma change_percent_landmarks_witness :
  exists t,
    trend_request Example.db0 (Example.now0 + 10 * usec_per_day) (Post 101) 7 = inr t
    /\ sum_total (previous t) = 3
    /\ sum_total (current t) = 0
    /\ change t = float_of_int (-100).
Proof.
  eexists. split; [vm_compute; reflexivity |].
  split; [reflexivity |]. split; [reflexivity |].
  refine (proj1 (proj2
            (change_percent_landmarks Example.db0
               (Example.now0 + 10 * usec_per_day) (Post 101) 7 _ _ _)) _).
  - vm_compute; reflexivity.
  - vm_compute; reflexivity.
  - vm_compute; reflexivity.
Defined.

(** ** An author's totals and the totals of the author's posts *)

Lemma count_filter_app {A} (f : A -> bool) (l1 l2 : list A) :
  count_filter f (l1 ++ l2) = count_filter f l1 + count_filter f l2.
Proof.
  unfold count_filter. rewrite filter_app, length_app. lia.
Qed.

Lemma count_filter_map {A B} (g : A -> B) (f : B -> bool) (l : list A) :
  count_filter f (map g l) = count_filter (fun a => f (g a)) l.
Proof.
  induction l as [| a l IH]; [reflexivity |].
  cbn [map]. rewrite !count_filter_cons, IH. reflexivity.
Qed.

Lemma count_filter_ext {A} (f g : A -> bool) (l : list A) :
  (forall a, f a = g a) -> count_filter f l = count_filter g l.
Proof.
  intros H. unfold count_filter. now rewrite (filter_ext f g H).
Qed.

Lemma sum_list_cons (x : Z) (l : list Z) : sum_list (x :: l) = x + sum_list l.
Proof. reflexivity. Qed.

Lemma sum_list_add {A} (g h : A -> Z) (l : list A) :
  sum_list (map (fun a => g a + h a) l) = sum_list (map g l) + sum_list (map h l).
Proof.
  induction l as [| a l IH]; [reflexivity |].
  cbn [map]. rewrite !sum_list_cons, IH. lia.
Qed.

Lemma sum_list_zero {A} (l : list A) : sum_list (map (fun _ => 0) l) = 0.
Proof.
  induction l as [| a l IH]; [reflexivity |].
  cbn [map]. rewrite sum_list_cons, IH. reflexivity.
Qed.

(** The rows one engagement has in the join, counted post by post. *)
Lemma join_row_count (w : engagement -> bool) (aid : Z) (e : engagement)
  (ps : list post) :
  count_filter (fun r : engagement * post => (post_author_id (snd r) =? aid) && w (fst r))
    (map (fun p => (e, p)) (filter (fun p => eng_post_id e =? Db.post_id p) ps))
  = sum_list
      (map (fun p => if (eng_post_id e =? Db.post_id p) && w e then 1 else 0)
         (filter (fun p => post_author_id p =? aid) ps)).
Proof.
  induction ps as [| p ps IH]; [reflexivity |].
  cbn [filter].
  destruct (eng_post_id e =? Db.post_id p) eqn:Hm;
    destruct (post_author_id p =? aid) eqn:Ha;
    cbn [map]; rewrite ?count_filter_cons, ?sum_list_cons; cbn [fst snd];
    rewrite ?Hm, ?Ha, IH; cbn [andb]; destruct (w e); lia.
Qed.

Lemma author_rows_by_post (w : engagement -> bool) (db : database) (aid : Z) :
  count_filter w (entity_engagements db (Author aid))
  = sum_list
      (map (fun p => count_filter w (entity_engagements db (Post (Db.post_id p))))
         (author_posts db aid)).
Proof.
  unfold entity_engagements, engagements_join_posts, author_posts.
  rewrite count_filter_map, count_filter_filter.
  induction (engagements db) as [| e es IH].
  - cbn [flat_map filter]. rewrite sum_list_zero. reflexivity.
  - cbn [flat_map]. rewrite count_filter_app, IH, join_row_count.
    rewrite <- sum_list_add. f_equal. apply map_ext. intros p.
    cbn [filter]. destruct (eng_post_id e =? Db.post_id p); cbn [andb].
    + rewrite count_filter_cons. reflexivity.
    + lia.
Qed.

(** X7: in an author trend response, the summed total of each period is
    the sum, over the posts of that author, of the summed total the post
    query gives for the same window. *)
Theorem author_totals_sum_of_posts (db : database) (now : datetime)
  (aid days : Z) (t : trends) :
  trend_request db now (Author aid) days = inr t ->
  sum_total (current t)
  = sum_list
      (map (fun p => sum_total
                       (post_current_query db (Db.post_id p)
                          (now - days * usec_per_day)))
         (author_posts db aid))
  /\ sum_total (previous t)
     = sum_list
         (map (fun p => sum_total
                          (post_previous_query db (Db.post_id p)
                             (now - days * usec_per_day - days * usec_per_day)
                             (now - days * usec_per_day)))
            (author_posts db aid)).
Proof.
  intros H. apply trend_request_inr in H. destruct H as [_ [Hc [Hp _]]].
  rewrite Hc, Hp, !sum_total_window, !author_rows_by_post.
  split; f_equal; apply map_ext; intros p.
  - now rewrite post_current_query_eq, sum_total_window.
  - now rewrite post_previous_query_eq, sum_total_window.
Qed.

Lemma author_totals_sum_of_posts_witness :
  exists t,
    trend_request Example.db0 Example.now0 (Author 1) 7 = inr t
    /\ sum_total (current t) = 3
    /\ sum_total (current t)
       = sum_list
           (map (fun p => sum_total
                            (post_current_query Example.db0 (Db.post_id p)
                               (Example.now0 - 7 * usec_per_day)))
              (author_posts Example.db0 1)).
Proof.
  eexists. split; [vm_compute; reflexivity |]. split; [reflexivity |].
  apply (author_totals_sum_of_posts Example.db0 Example.now0 1 7).
  vm_compute; reflexivity.
Defined.

(** ** Bounds on the summary and what it counts *)

Lemma count_distinct_le_length (l : list Z) :
  0 <= count_distinct l <= Z.of_nat (List.length l).
Proof.
  unfold count_distinct. split; [lia |].
  apply inj_le, NoDup_incl_length; [apply NoDup_nodup |].
  intros x Hx. now apply nodup_In in Hx.
Qed.

Lemma count_distinct_incl_length (l1 l2 : list Z) :
  incl l1 l2 -> 0 <= count_distinct l1 <= Z.of_nat (List.length l2).
Proof.
  intros H. pose proof (count_distinct_incl _ _ H).
  pose proof (count_distinct_le_length l1). pose proof (count_distinct_le_length l2).
  lia.
Qed.

Lemma summary_row_In (db : database) (a : author) (op : option post)
  (oe : option engagement) :
  In (a, op, oe) (summary_join db) ->
  In a (authors db)
  /\ match op with
     | Some p => In p (posts db) /\ Db.author_id a = post_author_id p
     | None => posts_of db a = []
     end.
Proof.
  intros Hin.
  assert (In (a, op) (author_left_join_posts db)) as Hap
      by (apply summary_join_In; now exists oe).
  apply author_left_join_posts_In in Hap. destruct Hap as [Ha Hop].
  split; [exact Ha |]. destruct op as [p |]; [| exact Hop].
  unfold posts_of in Hop. apply filter_In in Hop.
  destruct Hop as [Hp Hid]. apply Z.eqb_eq in Hid. auto.
Qed.

Lemma non_null_engagements (rows : list summary_row) :
  Z.of_nat (List.length (non_null (map row_engagement rows)))
  = count_filter has_engagement rows.
Proof.
  induction rows as [| r rows IH]; [reflexivity |].
  rewrite count_filter_cons, <- IH. unfold has_engagement. cbn [map].
  destruct (row_engagement r); cbn [non_null List.length];
    rewrite ?Nat2Z.inj_succ; lia.
Qed.

Lemma row_type_counts_one (r : summary_row) :
  (if engagement_has_type "view" r then 1 else 0)
  + (if engagement_has_type "like" r then 1 else 0)
  + (if engagement_has_type "comment" r then 1 else 0)
  + (if engagement_has_type "share" r then 1 else 0)
  <= (if has_engagement r then 1 else 0).
Proof.
  unfold engagement_has_type, has_engagement.
  destruct (row_engagement r) as [e |]; [apply type_counts_one | lia].
Qed.

Lemma summary_type_counts (rows : list summary_row) :
  count_filter (engagement_has_type "view") rows
  + count_filter (engagement_has_type "like") rows
  + count_filter (engagement_has_type "comment") rows
  + count_filter (engagement_has_type "share") rows
  <= count_filter has_engagement rows.
Proof.
  induction rows as [| r rows IH]; [cbn; lia |].
  rewrite !count_filter_cons. pose proof (row_type_counts_one r). lia.
Qed.

(** X8: in every summary response the counts are non-negative,
    total_authors is at most the number of authors, total_posts at most
    the number of posts, and the four per-type counts add up to at most
    total_engagements. *)
Theorem summary_totals_bounds (nd : Z -> Z -> Z) (db : database)
  (now : datetime) (days : Z) (r : SummaryMetrics) :
  get_analytics_summary nd db now days = inr r ->
  0 <= total_authors r <= Z.of_nat (List.length (authors db))
  /\ 0 <= total_posts r <= Z.of_nat (List.length (posts db))
  /\ 0 <= total_views r /\ 0 <= total_likes r
  /\ 0 <= total_comments r /\ 0 <= total_shares r
  /\ total_views r + total_likes r + total_comments r + total_shares r
     <= total_engagements r.
Proof.
  intros H. apply summary_inr in H. subst r.
  cbn [total_authors total_posts total_engagements total_views total_likes
       total_comments total_shares].
  unfold summary_query.
  cbn [total_authors_col total_posts_col total_engagements_col total_views_col
       total_likes_col total_comments_col total_shares_col].
  set (rows := filter (summary_where (now - days * usec_per_day)) (summary_join db)).
  split.
  { rewrite <- (length_map Db.author_id (authors db)).
    apply count_distinct_incl_length. intros x Hx.
    apply in_map_iff in Hx. destruct Hx as [[[a op] oe] [<- Hrow]].
    apply filter_In in Hrow. destruct Hrow as [Hrow _].
    apply summary_row_In in Hrow. apply in_map. tauto. }
  split.
  { rewrite <- (length_map Db.post_id (posts db)).
    apply count_distinct_incl_length. intros x Hx.
    apply in_map_iff in Hx. destruct Hx as [p [<- Hp]].
    apply non_null_In, in_map_iff in Hp. destruct Hp as [[[a op] oe] [Heq Hrow]].
    unfold row_post in Heq. cbn [fst snd] in Heq. subst op.
    apply filter_In in Hrow. destruct Hrow as [Hrow _].
    apply summary_row_In in Hrow. apply in_map. tauto. }
  rewrite non_null_engagements.
  repeat split; try apply count_filter_nonneg. apply summary_type_counts.
Qed.

Lemma summary_totals_bounds_witness :
  exists r,
    get_analytics_summary Example.round_half_up_div Example.db0 Example.now0 30 = inr r
    /\ total_views r = 3 /\ total_likes r = 1 /\ total_engagements r = 4
    /\ 0 <= total_authors r <= Z.of_nat (List.length (authors Example.db0)).
Proof.
  eexists. split; [vm_compute; reflexivity |].
  split; [reflexivity |]. split; [reflexivity |]. split; [reflexivity |].
  refine (proj1 (summary_totals_bounds Example.round_half_up_div Example.db0
                   Example.now0 30 _ _)).
  vm_compute; reflexivity.
Defined.

(** X9: with an empty authors table every count of a summary response is
    0 and the average is 0.0, whatever the posts and engagements tables
    hold: the join starts from the authors. *)
Theorem summary_without_authors (nd : Z -> Z -> Z) (db : database)
  (now : datetime) (days : Z) (r : SummaryMetrics) :
  get_analytics_summary nd db now days = inr r ->
  authors db = [] ->
  r = {| total_authors := 0; total_posts := 0; total_engagements := 0;
         total_views := 0; total_likes := 0; total_comments := 0;
         total_shares := 0; avg_engagement_per_post := S754_zero false |}.
Proof.
  intros H Hnil. apply summary_inr in H. subst r.
  unfold summary_query, summary_join, author_left_join_posts.
  rewrite Hnil. reflexivity.
Qed.

Lemma summary_without_authors_witness :
  exists r,
    get_analytics_summary Example.round_half_up_div
      {| authors := []; posts := posts Example.db0;
         engagements := engagements Example.db0 |} Example.now0 30 = inr r
    /\ r = {| total_authors := 0; total_posts := 0; total_engagements := 0;
              total_views := 0; total_likes := 0; total_comments := 0;
              total_shares := 0; avg_engagement_per_post := S754_zero false |}.
Proof.
  eexists. split; [vm_compute; reflexivity |].
  apply (summary_without_authors Example.round_half_up_div
           {| authors := []; posts := posts Example.db0;
              engagements := engagements Example.db0 |} Example.now0 30).
  - vm_compute; reflexivity.
  - reflexivity.
Defined.

(** ** The posts and the engagements the summary counts *)

Lemma count_filter_flat_map {A B} (f : B -> bool) (g : A -> list B) (l : list A) :
  count_filter f (flat_map g l) = sum_list (map (fun a => count_filter f (g a)) l).
Proof.
  induction l as [| a l IH]; [reflexivity |].
  cbn [flat_map map]. rewrite count_filter_app, sum_list_cons, IH. reflexivity.
Qed.

Lemma sum_list_app (l1 l2 : list Z) :
  sum_list (l1 ++ l2) = sum_list l1 + sum_list l2.
Proof.
  induction l1 as [| x l1 IH]; [reflexivity |].
  cbn [app]. rewrite !sum_list_cons, IH. lia.
Qed.

Lemma sum_list_flat_map {A B} (h : B -> Z) (g : A -> list B) (l : list A) :
  sum_list (map h (flat_map g l))
  = sum_list (map (fun a => sum_list (map h (g a))) l).
Proof.
  induction l as [| a l IH]; [reflexivity |].
  cbn [flat_map map]. rewrite map_app, sum_list_app, sum_list_cons, IH.
  reflexivity.
Qed.

Lemma sum_list_filter {A} (c : A -> bool) (k : A -> Z) (l : list A) :
  sum_list (map (fun a => if c a then k a else 0) l)
  = sum_list (map k (filter c l)).
Proof.
  induction l as [| a l IH]; [reflexivity |].
  cbn [map filter]. rewrite sum_list_cons, IH.
  destruct (c a); [cbn [map]; now rewrite sum_list_cons | lia].
Qed.

Lemma count_filter_list_prod {A B} (f : A * B -> bool) (l1 : list A) (l2 : list B) :
  count_filter f (list_prod l1 l2)
  = sum_list (map (fun a => count_filter (fun b => f (a, b)) l2) l1).
Proof.
  induction l1 as [| a l1 IH]; [reflexivity |].
  cbn [list_prod map]. rewrite count_filter_app, count_filter_map, sum_list_cons, IH.
  reflexivity.
Qed.

Lemma count_filter_guard {A} (b : bool) (f : A -> bool) (l : list A) :
  count_filter (fun a => b && f a) l = if b then count_filter f l else 0.
Proof.
  destruct b; [reflexivity |]. apply count_filter_none. reflexivity.
Qed.

(** The rows with an engagement that one pair of the first join gives. *)
Lemma summary_pair_engagements (db : database) (s : datetime)
  (a : author) (p : post) :
  count_filter (fun r => summary_where s r && has_engagement r)
    match filter (fun e => Db.post_id p =? eng_post_id e) (engagements db) with
    | [] => [(a, Some p, None)]
    | es => map (fun e => (a, Some p, Some e)) es
    end
  = if s <=? publish_timestamp p
    then count_filter (fun e => Db.post_id p =? eng_post_id e) (engagements db)
    else 0.
Proof.
  unfold count_filter at 2.
  destruct (filter (fun e => Db.post_id p =? eng_post_id e) (engagements db))
    as [| e es].
  - rewrite count_filter_cons. unfold summary_where, has_engagement, row_engagement.
    cbn [fst snd]. rewrite andb_false_r.
    destruct (s <=? publish_timestamp p); reflexivity.
  - rewrite count_filter_map.
    rewrite (count_filter_ext _ (fun _ => (s <=? publish_timestamp p) && true))
      by reflexivity.
    rewrite count_filter_guard. unfold count_filter. now rewrite filter_all.
Qed.

Lemma summary_author_engagements (db : database) (s : datetime) (a : author) :
  sum_list
    (map (fun ap : author * option post =>
            count_filter (fun r => summary_where s r && has_engagement r)
              match snd ap with
              | None => [(fst ap, None, None)]
              | Some p =>
                  match filter (fun e => Db.post_id p =? eng_post_id e)
                          (engagements db) with
                  | [] => [(fst ap, Some p, None)]
                  | es => map (fun e => (fst ap, Some p, Some e)) es
                  end
              end)
       match posts_of db a with
       | [] => [(a, None)]
       | ps => map (fun p => (a, Some p)) ps
       end)
  = sum_list
      (map (fun p => if s <=? publish_timestamp p
                     then count_filter (fun e => Db.post_id p =? eng_post_id e)
                            (engagements db)
                     else 0)
         (posts_of db a)).
Proof.
  destruct (posts_of db a) as [| p ps]; [reflexivity |].
  rewrite map_map. f_equal. apply map_ext. intros q. cbn [fst snd].
  apply summary_pair_engagements.
Qed.

Lemma counted_triple_author (db : database) (s : datetime) (a : author) :
  count_filter (fun x => counted_triple s (a, x))
    (list_prod (posts db) (engagements db))
  = sum_list
      (map (fun p => if s <=? publish_timestamp p
                     then count_filter (fun e => Db.post_id p =? eng_post_id e)
                            (engagements db)
                     else 0)
         (posts_of db a)).
Proof.
  rewrite count_filter_list_prod. unfold posts_of.
  rewrite <- sum_list_filter. f_equal. apply map_ext. intros p.
  unfold counted_triple. cbn [fst snd].
  rewrite (count_filter_ext _
             (fun e => ((Db.author_id a =? post_author_id p)
                        && (s <=? publish_timestamp p))
                       && (Db.post_id p =? eng_post_id e))).
  - rewrite count_filter_guard.
    destruct (Db.author_id a =? post_author_id p); [| reflexivity].
    cbn [andb]. reflexivity.
  - intros e. destruct (Db.author_id a =? post_author_id p);
      destruct (s <=? publish_timestamp p);
      destruct (Db.post_id p =? eng_post_id e); reflexivity.
Qed.

(** X10: in every summary response total_posts is the number of distinct
    ids of the posts published at or after now - N by an author of the
    authors table, whether or not they have engagements; and
    total_engagements is the number of triples of an author, a post of
    that author published at or after now - N, and an engagement of that
    post. *)
Theorem summary_counts_posts_and_engagements (nd : Z -> Z -> Z) (db : database)
  (now : datetime) (days : Z) (r : SummaryMetrics) :
  get_analytics_summary nd db now days = inr r ->
  let start_date := now - days * usec_per_day in
  total_posts r
  = count_distinct (map Db.post_id (filter (counted_post db start_date) (posts db)))
  /\ total_engagements r
     = count_filter (counted_triple start_date)
         (list_prod (authors db) (list_prod (posts db) (engagements db))).
Proof.
  intros H start_date. apply summary_inr in H. subst r.
  cbn [total_posts total_engagements]. unfold summary_query.
  cbn [total_posts_col total_engagements_col]. fold start_date. split.
  - apply count_distinct_same. intros x. rewrite !in_map_iff. split.
    + intros [p [Hx Hp]]. exists p. split; [exact Hx |].
      apply non_null_In, in_map_iff in Hp. destruct Hp as [[[a op] oe] [Heq Hrow]].
      unfold row_post in Heq. cbn [fst snd] in Heq. subst op.
      apply filter_In in Hrow. destruct Hrow as [Hrow Hw].
      apply summary_row_In in Hrow. destruct Hrow as [Ha [Hp Hid]].
      apply filter_In. split; [exact Hp |]. unfold counted_post.
      unfold summary_where in Hw. cbn [fst snd] in Hw. rewrite Hw. cbn [andb].
      apply existsb_exists. exists a. split; [exact Ha | now apply Z.eqb_eq].
    + intros [p [Hx Hp]]. exists p. split; [exact Hx |].
      apply filter_In in Hp. destruct Hp as [Hp Hc]. unfold counted_post in Hc.
      apply andb_true_iff in Hc. destruct Hc as [Hs Hex].
      apply existsb_exists in Hex. destruct Hex as [a [Ha Hid]].
      assert (In (a, Some p) (author_left_join_posts db)) as Hap.
      { apply author_left_join_posts_In. split; [exact Ha |].
        unfold posts_of. apply filter_In. auto. }
      apply summary_join_In in Hap. destruct Hap as [oe Hrow].
      apply non_null_In, in_map_iff. exists (a, Some p, oe).
      split; [reflexivity |]. apply filter_In. split; [exact Hrow |].
      unfold summary_where. cbn [fst snd]. exact Hs.
  - rewrite non_null_engagements, count_filter_filter.
    unfold summary_join. rewrite count_filter_flat_map.
    unfold author_left_join_posts. rewrite sum_list_flat_map.
    rewrite count_filter_list_prod. f_equal. apply map_ext. intros a.
    rewrite counted_triple_author.
    apply (summary_author_engagements db start_date a).
Qed.

(** A year and a half at [now0]: both posts are counted, the old post of
    Cy without any engagement; the four engagements are those of the post
    of Ada. *)
Lemma summary_counts_posts_and_engagements_witness :
  exists r,
    get_analytics_summary Example.round_half_up_div Example.db0 Example.now0 500 = inr r
    /\ total_posts r = 2 /\ total_engagements r = 4
    /\ total_posts r
       = count_distinct
           (map Db.post_id
              (filter (counted_post Example.db0 (Example.now0 - 500 * usec_per_day))
                 (posts Example.db0))).
Proof.
  eexists. split; [vm_compute; reflexivity |].
  split; [reflexivity |]. split; [reflexivity |].
  refine (proj1 (summary_counts_posts_and_engagements Example.round_half_up_div
                   Example.db0 Example.now0 500 _ _)).
  vm_compute; reflexivity.
Defined.

(** ** The rows of a run of the engagement generator *)
Local Open Scope list_scope.

Lemma generate_engagement_inr (i : Z) (r : draws) (e : engagement) :
  generate_engagement i r = inr e ->
  engagement_id e = i /\ eng_post_id e = fst (chosen_post r)
  /\ type e = engagement_type r /\ user_id e = chosen_user r.
Proof.
  unfold generate_engagement. destruct (chosen_post r) as [pid pub].
  intros H. apply bind_inr in H. destruct H as [t1 [_ H]].
  apply bind_inr in H. destruct H as [t2 [_ H]]. inversion H. cbn. auto.
Qed.

Lemma generate_from_cons (i : Z) (r : draws) (rs : list draws)
  (es : list engagement) :
  generate_from i (r :: rs) = inr es ->
  exists e es', es = e :: es' /\ generate_engagement i r = inr e
                /\ generate_from (i + 1) rs = inr es'.
Proof.
  cbn [generate_from]. intros H. apply bind_inr in H. destruct H as [e [He H]].
  apply bind_inr in H. destruct H as [es' [Hes H]]. inversion H. eauto.
Qed.

Lemma ids_from_succ (i : Z) (n : nat) :
  ids_from i (S n) = i :: ids_from (i + 1) n.
Proof.
  unfold ids_from. cbn [seq map]. rewrite Z.add_0_r. f_equal.
  rewrite <- seq_shift, map_map. apply map_ext. intros k. lia.
Qed.

Lemma ids_from_In (n : nat) (i x : Z) :
  In x (ids_from i n) <-> i <= x < i + Z.of_nat n.
Proof.
  revert i. induction n as [| n IH]; intros i.
  - cbn. lia.
  - rewrite ids_from_succ. cbn [In]. rewrite IH. lia.
Qed.

Lemma ids_from_NoDup (n : nat) (i : Z) : NoDup (ids_from i n).
Proof.
  revert i. induction n as [| n IH]; intros i.
  - constructor.
  - rewrite ids_from_succ. constructor; [| apply IH].
    rewrite ids_from_In. lia.
Qed.

Lemma generate_from_ids (rs : list draws) (i : Z) (es : list engagement) :
  generate_from i rs = inr es ->
  map engagement_id es = ids_from i (List.length rs).
Proof.
  revert i es. induction rs as [| r rs IH]; intros i es H.
  - inversion H. reflexivity.
  - apply generate_from_cons in H. destruct H as [e [es' [-> [He Hes]]]].
    apply generate_engagement_inr in He. destruct He as [Hid _].
    cbn [map List.length]. rewrite ids_from_succ, (IH _ _ Hes), Hid. reflexivity.
Qed.

Lemma generated_ids_consecutive_aux (rs : list draws) (es : list engagement) :
  generate_from 2006 rs = inr es ->
  List.length es = List.length rs
  /\ NoDup (map engagement_id es)
  /\ (forall e, In e es -> 2005 < engagement_id e).
Proof.
  intros H. apply generate_from_ids in H. split; [| split].
  - rewrite <- (length_map engagement_id), H. unfold ids_from.
    now rewrite length_map, length_seq.
  - rewrite H. apply ids_from_NoDup.
  - intros e He. apply (in_map engagement_id) in He. rewrite H in He.
    apply ids_from_In in He. lia.
Qed.

(** X11: when the loop of the generator completes, it has produced one
    row per iteration, with the ids 2006, 2007, ... in order: the ids are
    pairwise distinct and all above 2005, the last id kept from the sample
    data. *)
Theorem generated_ids_consecutive (rs : list draws) (es : list engagement) :
  generate_engagements rs = inr es ->
  List.length es = List.length rs
  /\ map engagement_id es = ids_from 2006 (List.length rs)
  /\ NoDup (map engagement_id es)
  /\ (forall e, In e es -> 2005 < engagement_id e).
Proof.
  unfold generate_engagements. intros H. apply generate_from_ids in H.
  split; [| split; [exact H | split]].
  - rewrite <- (length_map engagement_id), H. unfold ids_from.
    now rewrite length_map, length_seq.
  - rewrite H. apply ids_from_NoDup.
  - intros e He. apply (in_map engagement_id) in He. rewrite H in He.
    apply ids_from_In in He. lia.
Qed.

Lemma generated_ids_consecutive_witness :
  exists es,
    generate_engagements [Example.early; Example.late] = inr es
    /\ map engagement_id es = [2006; 2007]
    /\ NoDup (map engagement_id es).
Proof.
  eexists. split; [vm_compute; reflexivity |]. split; [reflexivity |].
  refine (proj1 (proj2 (proj2
            (generated_ids_consecutive [Example.early; Example.late] _ _)))).
  vm_compute; reflexivity.
Defined.

Lemma insert_engagements_working (c : connection) (row : engagement) (i : Z) :
  working (if i mod 1000 =? 0 then commit (insert_row c row) else insert_row c row)
  = working c ++ [row].
Proof. destruct (i mod 1000 =? 0); reflexivity. Qed.

Lemma insert_engagements_done (rs : list draws) (i : Z) (c c' : connection) :
  insert_engagements i rs c = (c', None) ->
  exists rows, generate_from i rs = inr rows /\ working c' = working c ++ rows.
Proof.
  revert i c. induction rs as [| r rs IH]; intros i c H.
  - inversion H. exists []. split; [reflexivity | now rewrite app_nil_r].
  - cbn [insert_engagements] in H.
    destruct (generate_engagement i r) as [e | row] eqn:Hrow; [discriminate |].
    apply IH in H. destruct H as [rows [Hgen Hw]].
    exists (row :: rows). split.
    + cbn [generate_from]. rewrite Hrow, Hgen. reflexivity.
    + rewrite Hw, insert_engagements_working, <- app_assoc. reflexivity.
Qed.

Lemma delete_generated_ids (es : list engagement) (e : engagement) :
  In e (delete_generated es) <-> In e es /\ engagement_id e <= 2005.
Proof.
  unfold delete_generated. rewrite filter_In, Z.leb_le. tauto.
Qed.

Lemma delete_generated_app (kept rows : list engagement) :
  (forall e, In e kept -> engagement_id e <= 2005) ->
  (forall e, In e rows -> 2005 < engagement_id e) ->
  delete_generated (kept ++ rows) = kept.
Proof.
  intros Hk Hr. unfold delete_generated. rewrite filter_app.
  rewrite (filter_none _ rows), app_nil_r.
  - induction kept as [| e kept IH]; [reflexivity |].
    cbn [filter]. replace (engagement_id e <=? 2005) with true.
    + f_equal. apply IH. intros x Hx. apply Hk. now right.
    + symmetry. apply Z.leb_le, Hk. now left.
  - intros e He. apply Z.leb_gt. now apply Hr.
Qed.

Lemma map_filter_NoDup {A} (g : A -> Z) (f : A -> bool) (l : list A) :
  NoDup (map g l) -> NoDup (map g (filter f l)).
Proof.
  induction l as [| a l IH]; intros H; [constructor |].
  inversion H as [| ? ? Hout Hnd]; subst. cbn [filter].
  destruct (f a); [| now apply IH].
  cbn [map]. constructor; [| now apply IH].
  intros Hin. apply Hout. apply in_map_iff in Hin.
  destruct Hin as [b [Hb Hin]]. apply filter_In in Hin.
  apply in_map_iff. exists b. tauto.
Qed.

Lemma NoDup_app_disjoint {A} (l1 l2 : list A) :
  NoDup l1 -> NoDup l2 -> (forall x, In x l1 -> ~ In x l2) -> NoDup (l1 ++ l2).
Proof.
  induction l1 as [| a l1 IH]; intros H1 H2 Hd; [exact H2 |].
  inversion H1 as [| ? ? Hout Hnd]; subst. cbn [app]. constructor.
  - intros Hin. apply in_app_or in Hin. destruct Hin as [Hin | Hin];
      [contradiction | apply (Hd a); [now left | exact Hin]].
  - apply IH; [exact Hnd | exact H2 |]. intros x Hx. apply Hd. now right.
Qed.

Lemma generator_run_rows (db db' : database) (rs : list draws) :
  run_generate_engagements db rs = (db', None) ->
  exists es,
    generate_from 2006 rs = inr es
    /\ posts db' = posts db
    /\ engagements db' = delete_generated (engagements db) ++ es.
Proof.
  unfold run_generate_engagements.
  destruct (insert_engagements 2006 rs _) as [c err] eqn:Hloop.
  destruct err as [e |]; [discriminate |]. intros H. inversion H; subst db'; clear H.
  apply insert_engagements_done in Hloop. destruct Hloop as [es [Hgen Hw]].
  exists es. cbn [working commit posts engagements] in *. auto.
Qed.

(** X12: a run of [generate_engagements] that completes leaves the
    authors and posts as they were and an engagements table made of the
    rows with id at most 2005 followed by one generated row per iteration;
    ids that were unique stay unique; and the rows a later run would keep
    are the same, so a run can be repeated without piling up rows. *)
Theorem generator_run_replaces_rows (db db' : database) (rs : list draws) :
  run_generate_engagements db rs = (db', None) ->
  exists es,
    generate_engagements rs = inr es
    /\ authors db' = authors db /\ posts db' = posts db
    /\ engagements db' = delete_generated (engagements db) ++ es
    /\ List.length (engagements db')
       = (List.length (delete_generated (engagements db)) + List.length rs)%nat
    /\ (NoDup (map engagement_id (engagements db)) ->
        NoDup (map engagement_id (engagements db')))
    /\ delete_generated (engagements db') = delete_generated (engagements db).
Proof.
  unfold run_generate_engagements.
  destruct (insert_engagements 2006 rs _) as [c err] eqn:Hloop.
  destruct err as [e |]; [discriminate |]. intros H. inversion H; subst db'; clear H.
  apply insert_engagements_done in Hloop. destruct Hloop as [es [Hgen Hw]].
  cbn [working commit authors posts engagements] in *.
  exists es. pose proof (generated_ids_consecutive_aux rs es Hgen) as [Hlen [Hnd Hids]].
  repeat split; auto.
  - rewrite Hw, length_app, Hlen. reflexivity.
  - intros Hold. rewrite Hw, map_app. apply NoDup_app_disjoint.
    + now apply map_filter_NoDup.
    + exact Hnd.
    + intros x Hx Hx'. apply in_map_iff in Hx, Hx'.
      destruct Hx as [a [<- Ha]]. destruct Hx' as [b [Heq Hb]].
      apply delete_generated_ids in Ha. apply Hids in Hb. lia.
  - rewrite Hw. apply delete_generated_app; [| exact Hids].
    intros x Hx. now apply delete_generated_ids in Hx.
Qed.

Lemma generator_run_replaces_rows_witness :
  exists db' es,
    run_generate_engagements Sample.db2 [Sample.good; Sample.good] = (db', None)
    /\ map engagement_id (engagements Sample.db2) = [2001; 2002; 2003; 2004; 2500]
    /\ map engagement_id (engagements db') = [2001; 2002; 2003; 2004; 2006; 2007]
    /\ generate_engagements [Sample.good; Sample.good] = inr es
    /\ engagements db' = delete_generated (engagements Sample.db2) ++ es.
Proof.
  destruct (generator_run_replaces_rows Sample.db2
              (fst (run_generate_engagements Sample.db2 [Sample.good; Sample.good]))
              [Sample.good; Sample.good] eq_refl)
    as [es [Hgen [_ [_ [Heng _]]]]].
  eexists. exists es. split; [vm_compute; reflexivity |].
  split; [reflexivity |]. split; [reflexivity |]. split; [exact Hgen | exact Heng].
Defined.

Lemma select_posts_In (db : database) (pid : Z) (pub : datetime) :
  In (pid, pub) (select_posts db) ->
  exists p, In p (posts db) /\ Db.post_id p = pid /\ publish_timestamp p = pub.
Proof.
  unfold select_posts. rewrite in_map_iff. intros [p [Heq Hp]].
  inversion Heq. eauto.
Qed.

Lemma generate_from_rows (posts : list (Z * datetime)) (rs : list draws) (i : Z)
  (es : list engagement) :
  Forall (possible posts) rs ->
  generate_from i rs = inr es ->
  forall e, In e es ->
    exists j r, possible posts r /\ generate_engagement j r = inr e.
Proof.
  intros Hall. revert i es. induction Hall as [| r rs Hr Hall IH]; intros i es H e He.
  - inversion H; subst. destruct He.
  - apply generate_from_cons in H. destruct H as [e0 [es' [-> [He0 Hes]]]].
    destruct He as [<- | He]; [exists i, r; auto | eapply IH; eauto].
Qed.

(** X13: when the fetched posts are those of the database and the run
    completes, every row with an id above 2005 has one of the four
    engagement types and refers to a post of the posts table, and is
    dated from 3 hours before to 723 hours after the publication of that
    post. *)
Theorem generated_rows_reference_posts (db db' : database) (rs : list draws) :
  Forall (possible (select_posts db)) rs ->
  run_generate_engagements db rs = (db', None) ->
  forall e, In e (engagements db') -> 2005 < engagement_id e ->
    In (type e) engagement_types
    /\ exists p, In p (posts db')
                /\ Db.post_id p = eng_post_id e
                /\ publish_timestamp p - 3 * usec_per_hour
                   <= engaged_timestamp e
                   <= publish_timestamp p + 723 * usec_per_hour.
Proof.
  intros Hall Hrun e He Hid.
  apply generator_run_rows in Hrun.
  destruct Hrun as [es [Hgen [Hposts Heng]]].
  rewrite Heng in He. apply in_app_or in He. destruct He as [He | He].
  { apply delete_generated_ids in He. lia. }
  destruct (generate_from_rows _ _ _ _ Hall Hgen e He) as [j [r [Hr Hrow]]].
  pose proof (generated_lag_bounds _ _ _ _ Hr Hrow) as [Hin Hlag].
  pose proof (generate_engagement_inr _ _ _ Hrow) as [_ [_ [Hty _]]].
  split.
  - rewrite Hty. exact (proj1 (proj2 Hr)).
  - apply select_posts_In in Hin. destruct Hin as [p [Hp [Hpid Hpub]]].
    exists p. rewrite Hposts, Hpid, Hpub. auto.
Qed.

Lemma generated_rows_reference_posts_witness :
  Forall (possible (select_posts Sample.db2)) [Sample.good; Sample.good]
  /\ forall e,
       In e (engagements (fst (run_generate_engagements Sample.db2
                                 [Sample.good; Sample.good]))) ->
       2005 < engagement_id e ->
       In (type e) engagement_types.
Proof.
  assert (Forall (possible (select_posts Sample.db2)) [Sample.good; Sample.good])
    as Hall.
  { repeat constructor; cbn; auto; try lia; discriminate. }
  split; [exact Hall |]. intros e He Hid.
  exact (proj1 (generated_rows_reference_posts Sample.db2 _
                  [Sample.good; Sample.good] Hall eq_refl e He Hid)).
Defined.

(** ** A run that fails part-way *)

Lemma last_commit_below (i : Z) : last_commit (i - 1) < i.
Proof. unfold last_commit. Z.div_mod_to_equations. lia. Qed.

Lemma insert_engagements_committed (c : connection) (row : engagement) (i : Z) :
  committed (if i mod 1000 =? 0 then commit (insert_row c row) else insert_row c row)
  = if i mod 1000 =? 0 then working c ++ [row] else committed c.
Proof. destruct (i mod 1000 =? 0); reflexivity. Qed.

(** The state in which the loop stops on an exception. *)
Lemma insert_engagements_failed (rs : list draws) (i : Z) (c c' : connection)
  (err : exn) :
  insert_engagements i rs c = (c', Some err) ->
  exists n rows r,
    nth_error rs n = Some r
    /\ generate_from i (firstn n rs) = inr rows
    /\ generate_engagement (i + Z.of_nat n) r = inl err
    /\ committed c'
       = if i <=? last_commit (i + Z.of_nat n - 1)
         then working c
              ++ firstn (Z.to_nat (last_commit (i + Z.of_nat n - 1) - i + 1)) rows
         else committed c.
Proof.
  revert i c. induction rs as [| r rs IH]; intros i c H; [discriminate |].
  cbn [insert_engagements] in H.
  destruct (generate_engagement i r) as [e | row] eqn:Hrow.
  - inversion H; subst c' err. exists 0%nat, [], r.
    cbn [nth_error firstn generate_from Z.of_nat]. rewrite Z.add_0_r.
    repeat split; [exact Hrow |].
    pose proof (last_commit_below i) as Hb. apply Z.leb_gt in Hb.
    now rewrite Hb.
  - apply IH in H. destruct H as [n [rows [r' [Hnth [Hgen [Hfail Hcom]]]]]].
    exists (S n), (row :: rows), r'.
    replace (i + Z.of_nat (S n)) with (i + 1 + Z.of_nat n) by lia.
    split; [exact Hnth |]. split.
    { cbn [firstn generate_from]. rewrite Hrow, Hgen. reflexivity. }
    split; [exact Hfail |].
    rewrite Hcom, insert_engagements_working, insert_engagements_committed.
    set (M := last_commit (i + 1 + Z.of_nat n - 1)).
    assert (M <= i + Z.of_nat n /\ M mod 1000 = 0
            /\ (i mod 1000 = 0 -> i <= M)) as [HM1 [HM2 HM3]].
    { unfold M, last_commit. Z.div_mod_to_equations. lia. }
    destruct (i + 1 <=? M) eqn:H1.
    + apply Z.leb_le in H1.
      replace (i <=? M) with true by (symmetry; apply Z.leb_le; lia).
      replace (Z.to_nat (M - i + 1)) with (S (Z.to_nat (M - (i + 1) + 1))) by lia.
      cbn [firstn]. rewrite <- app_assoc. reflexivity.
    + apply Z.leb_gt in H1. destruct (i mod 1000 =? 0) eqn:Hi.
      * apply Z.eqb_eq in Hi. assert (M = i) as -> by (specialize (HM3 Hi); lia).
        rewrite Z.leb_refl. replace (Z.to_nat (i - i + 1)) with 1%nat by lia.
        reflexivity.
      * apply Z.eqb_neq in Hi.
        replace (i <=? M) with false; [reflexivity |].
        symmetry. apply Z.leb_gt.
        assert (M <> i) by (intros ->; contradiction). lia.
Qed.

(** X14: when an iteration of the generator raises (the engagement
    datetime is out of range), after [n] rows were inserted, the database
    keeps what the last batch commit saw: if fewer than 995 rows were
    inserted (no id reached 3000) the engagements table is untouched, the
    DELETE included; otherwise it holds the rows with id at most 2005 and
    the generated rows up to the last id that is a multiple of 1000, and
    the rows inserted after that are lost. *)
Theorem failed_run_keeps_committed_batches (db db' : database) (rs : list draws)
  (err : exn) :
  run_generate_engagements db rs = (db', Some err) ->
  exists n rows r,
    nth_error rs n = Some r
    /\ generate_engagements (firstn n rs) = inr rows
    /\ generate_engagement (2006 + Z.of_nat n) r = inl err
    /\ authors db' = authors db /\ posts db' = posts db
    /\ engagements db'
       = if 995 <=? Z.of_nat n
         then delete_generated (engagements db)
              ++ firstn (Z.to_nat (last_commit (2005 + Z.of_nat n) - 2005)) rows
         else engagements db.
Proof.
  unfold run_generate_engagements.
  destruct (insert_engagements 2006 rs _) as [c err'] eqn:Hloop.
  destruct err' as [e |]; [| discriminate].
  intros H. inversion H; subst db' e; clear H.
  apply insert_engagements_failed in Hloop.
  destruct Hloop as [n [rows [r [Hnth [Hgen [Hfail Hcom]]]]]].
  exists n, rows, r. cbn [authors posts engagements committed working] in *.
  repeat split; auto. rewrite Hcom.
  replace (2006 + Z.of_nat n - 1) with (2005 + Z.of_nat n) by lia.
  assert ((2006 <=? last_commit (2005 + Z.of_nat n)) = (995 <=? Z.of_nat n)) as ->.
  { unfold last_commit.
    destruct (995 <=? Z.of_nat n) eqn:E.
    - apply Z.leb_le in E. apply Z.leb_le. Z.div_mod_to_equations. lia.
    - apply Z.leb_gt in E. apply Z.leb_gt. Z.div_mod_to_equations. lia. }
  destruct (995 <=? Z.of_nat n); [| reflexivity].
  do 2 f_equal. lia.
Qed.

(** Three rows for the post of Ada, then the post [far]: the run fails
    before any commit. *)
Lemma failed_run_keeps_committed_batches_witness :
  exists db' err n rows r,
    run_generate_engagements Sample.db2 (repeat Sample.good 3 ++ [Sample.doomed])
    = (db', Some err)
    /\ nth_error (repeat Sample.good 3 ++ [Sample.doomed]) n = Some r
    /\ generate_engagements (firstn n (repeat Sample.good 3 ++ [Sample.doomed]))
       = inr rows
    /\ generate_engagement (2006 + Z.of_nat n) r = inl err
    /\ engagements db'
       = if 995 <=? Z.of_nat n
         then delete_generated (engagements Sample.db2)
              ++ firstn (Z.to_nat (last_commit (2005 + Z.of_nat n) - 2005)) rows
         else engagements Sample.db2.
Proof.
  eassert (run_generate_engagements Sample.db2
             (repeat Sample.good 3 ++ [Sample.doomed]) = (_, Some _)) as H
      by (vm_compute; reflexivity).
  destruct (failed_run_keeps_committed_batches _ _ _ _ H)
    as [n [rows [r [H1 [H2 [H3 [_ [_ H4]]]]]]]].
  do 2 eexists. exists n, rows, r. repeat split; eassumption.
Defined.

(** The same run evaluated: nothing was committed, the table is as before
    the run, the row 2500 of the earlier run included. *)
Lemma failed_run_before_first_commit :
  exists db' err,
    run_generate_engagements Sample.db2 (repeat Sample.good 3 ++ [Sample.doomed])
    = (db', Some err)
    /\ err = OverflowError "date value out of range"
    /\ engagements db' = engagements Sample.db2.
Proof.
  do 2 eexists. split; [vm_compute; reflexivity |]. split; reflexivity.
Qed.

(** 1000 rows for the post of Ada, then the post [far]: the rows 2006 to
    3000 are committed with the delete, the rows 3001 to 3005 are lost. *)
Lemma failed_run_after_first_commit :
  exists db' err,
    run_generate_engagements Sample.db2 (repeat Sample.good 1000 ++ [Sample.doomed])
    = (db', Some err)
    /\ err = OverflowError "date value out of range"
    /\ map engagement_id (firstn 6 (engagements db'))
       = [2001; 2002; 2003; 2004; 2006; 2007]
    /\ List.length (engagements db') = 999%nat.
Proof.
  do 2 eexists. split; [vm_compute; reflexivity |].
  split; [reflexivity |]. split; vm_compute; reflexivity.
Qed.

(** ** The engagements by hour of [run_analysis] and [verify_setup] *)

Lemma HOUR_range (ts : datetime) : 0 <= HOUR ts <= 23.
Proof.
  unfold HOUR, usec_per_day, usec_per_hour. Z.div_mod_to_equations. lia.
Qed.

Lemma group_hours_Sorted (es : list engagement) : Sorted Z.lt (group_hours es).
Proof.
  induction es as [| e es IH]; cbn [group_hours fold_right].
  - constructor.
  - now apply insert_date_Sorted.
Qed.

Lemma group_hours_In (es : list engagement) (h : Z) :
  In h (group_hours es) <-> exists e, In e es /\ HOUR (engaged_timestamp e) = h.
Proof.
  induction es as [| e es IH]; cbn [group_hours fold_right].
  - split; [intros [] | intros [e [[] _]]].
  - fold (group_hours es). rewrite insert_date_In, IH. split.
    + intros [-> | [e' [Hin Hd]]]; [exists e | exists e']; cbn [In]; auto.
    + intros [e' [[<- | Hin] Hd]]; [left | right; exists e']; auto.
Qed.

Lemma sum_indicator (x : Z) (ks : list Z) :
  NoDup ks -> In x ks ->
  sum_list (map (fun k => if x =? k then 1 else 0) ks) = 1.
Proof.
  induction ks as [| k ks IH]; intros Hnd Hin; [destruct Hin |].
  inversion Hnd as [| ? ? Hout Hnd']; subst. cbn [map]. rewrite sum_list_cons.
  destruct (x =? k) eqn:E.
  - apply Z.eqb_eq in E. subst k.
    rewrite (map_ext_in _ (fun _ => 0)), sum_list_zero; [reflexivity |].
    intros k Hk. destruct (x =? k) eqn:E; [| reflexivity].
    apply Z.eqb_eq in E. subst k. contradiction.
  - apply Z.eqb_neq in E. destruct Hin as [-> | Hin]; [contradiction |].
    rewrite IH by assumption. reflexivity.
Qed.

(** The counts of the groups of a key add up to the number of rows. *)
Lemma sum_counts_keys {A} (key : A -> Z) (l : list A) (ks : list Z) :
  NoDup ks ->
  (forall a, In a l -> In (key a) ks) ->
  sum_list (map (fun k => count_filter (fun a => key a =? k) l) ks)
  = Z.of_nat (List.length l).
Proof.
  intros Hnd. induction l as [| a l IH]; intros Hcover.
  - cbn [List.length]. apply sum_list_zero.
  - rewrite (map_ext (fun k => count_filter (fun x => key x =? k) (a :: l))
               (fun k => (if key a =? k then 1 else 0)
                         + count_filter (fun x => key x =? k) l))
      by (intros k; now rewrite count_filter_cons).
    rewrite sum_list_add, IH by (intros x Hx; apply Hcover; now right).
    rewrite (sum_indicator _ _ Hnd (Hcover a (or_introl eq_refl))).
    cbn [List.length]. lia.
Qed.

Lemma hour_rows_cover (db : database) (e : engagement) :
  In e (engagements db) ->
  In (HOUR (engaged_timestamp e)) (map fst (hour_query db)).
Proof.
  intros He. unfold hour_query. rewrite map_map. cbn [fst]. rewrite map_id.
  apply group_hours_In. now exists e.
Qed.

(** X15: the engagements-by-hour query returns at most 24 rows, in
    strictly increasing hour order with hours between 0 and 23; every
    hour with an engagement has a row, every row counts at least one
    engagement, and the counts add up to the number of engagements. *)
Theorem hour_query_rows (db : database) :
  (List.length (hour_query db) <= 24)%nat
  /\ Sorted Z.lt (map fst (hour_query db))
  /\ (forall h n, In (h, n) (hour_query db) ->
                  0 <= h <= 23 /\ 1 <= n
                  /\ n = count_filter (at_hour h) (engagements db))
  /\ (forall e, In e (engagements db) ->
                In (HOUR (engaged_timestamp e)) (map fst (hour_query db)))
  /\ sum_list (map snd (hour_query db)) = Z.of_nat (List.length (engagements db)).
Proof.
  assert (map fst (hour_query db) = group_hours (engagements db)) as Hkeys.
  { unfold hour_query. rewrite map_map. cbn [fst]. apply map_id. }
  pose proof (group_hours_Sorted (engagements db)) as Hs.
  split; [| split; [| split; [| split]]].
  - rewrite <- (length_map fst), Hkeys.
    change 24%nat with (List.length (ids_from 0 24)).
    apply NoDup_incl_length; [now apply Sorted_lt_NoDup |].
    intros h Hh. apply group_hours_In in Hh. destruct Hh as [e [_ <-]].
    apply ids_from_In. pose proof (HOUR_range (engaged_timestamp e)). lia.
  - now rewrite Hkeys.
  - intros h n Hin. unfold hour_query in Hin. apply in_map_iff in Hin.
    destruct Hin as [h' [Heq Hh]]. inversion Heq; subst h' n; clear Heq.
    apply group_hours_In in Hh. destruct Hh as [e [He Hhour]].
    split; [rewrite <- Hhour; apply HOUR_range |]. split; [| reflexivity].
    apply (count_filter_some _ _ e He). unfold at_hour. now apply Z.eqb_eq.
  - intros e He. rewrite Hkeys. apply group_hours_In. now exists e.
  - unfold hour_query. rewrite map_map. cbn [snd]. unfold at_hour.
    apply sum_counts_keys; [now apply Sorted_lt_NoDup |].
    intros e He. apply group_hours_In. now exists e.
Qed.

(** The engagements of [db0] fall at 12:00 (twice) and 13:00 (twice). *)
Lemma hour_query_rows_witness :
  hour_query Example.db0 = [(12, 2); (13, 2)]
  /\ sum_list (map snd (hour_query Example.db0))
     = Z.of_nat (List.length (engagements Example.db0)).
Proof.
  split; [reflexivity |].
  exact (proj2 (proj2 (proj2 (proj2 (hour_query_rows Example.db0))))).
Defined.

Lemma idxmax_first_max (rows : list (Z * Z)) (m : Z * Z) :
  idxmax rows = Some m ->
  exists before after,
    rows = before ++ m :: after
    /\ (forall r, In r before -> snd r < snd m)
    /\ (forall r, In r after -> snd r <= snd m).
Proof.
  revert m. induction rows as [| r rest IH]; intros m H; [discriminate |].
  cbn [idxmax] in H. destruct (idxmax rest) as [m' |] eqn:E.
  - destruct (IH m' eq_refl) as [before [after [Hrows [Hb Ha]]]].
    destruct (snd m' <=? snd r) eqn:Hle; inversion H; subst m; clear H.
    + apply Z.leb_le in Hle. exists [], rest. split; [reflexivity |].
      split; [intros x [] |]. intros x Hx. rewrite Hrows in Hx.
      apply in_app_or in Hx. destruct Hx as [Hx | [<- | Hx]].
      * specialize (Hb x Hx). lia.
      * exact Hle.
      * specialize (Ha x Hx). lia.
    + apply Z.leb_gt in Hle. exists (r :: before), after.
      split; [now rewrite Hrows |]. split; [| exact Ha].
      intros x [<- | Hx]; [exact Hle | now apply Hb].
  - inversion H; subst m. destruct rest as [| r' rest'].
    + exists [], []. repeat split; intros x [].
    + cbn [idxmax] in E. destruct (idxmax rest') as [m'' |];
        [destruct (snd m'' <=? snd r') |]; discriminate.
Qed.

Lemma Sorted_lt_split (l1 l2 : list Z) (x : Z) :
  Sorted Z.lt (l1 ++ x :: l2) -> forall y, In y l2 -> x < y.
Proof.
  intros H. apply Sorted_StronglySorted in H; [| exact Z.lt_trans].
  induction l1 as [| a l1 IH]; cbn [app] in H.
  - inversion H as [| ? ? _ Hall]; subst. rewrite Forall_forall in Hall. exact Hall.
  - inversion H; subst. now apply IH.
Qed.

(** X16: the peak hour that [run_analysis] prints exists exactly when
    there are engagements; it is an hour with the largest count, and the
    earliest such hour. *)
Theorem peak_hour_is_earliest_maximum (db : database) :
  (peak_hour db = None <-> engagements db = [])
  /\ forall h, peak_hour db = Some h ->
       exists n, In (h, n) (hour_query db)
                 /\ forall h' n', In (h', n') (hour_query db) ->
                      n' <= n /\ (n' = n -> h <= h').
Proof.
  split.
  - unfold peak_hour. split.
    + intros H. destruct (engagements db) as [| e es] eqn:E; [reflexivity |].
      exfalso.
      assert (In (HOUR (engaged_timestamp e)) (map fst (hour_query db))) as Hin.
      { apply hour_rows_cover. rewrite E. now left. }
      destruct (hour_query db) as [| r rows]; [destruct Hin |].
      cbn [idxmax] in H. destruct (idxmax rows) as [m |];
        [destruct (snd m <=? snd r) |]; discriminate.
    + intros E. unfold hour_query. rewrite E. reflexivity.
  - intros h H. unfold peak_hour in H.
    destruct (idxmax (hour_query db)) as [[h0 n] |] eqn:E; [| discriminate].
    inversion H; subst h0; clear H. exists n.
    destruct (idxmax_first_max _ _ E) as [before [after [Hrows [Hb Ha]]]].
    split; [rewrite Hrows; apply in_or_app; right; now left |].
    intros h' n' Hin. rewrite Hrows in Hin. apply in_app_or in Hin.
    destruct Hin as [Hin | [Heq | Hin]].
    + specialize (Hb _ Hin). cbn [snd] in Hb. lia.
    + inversion Heq; subst. lia.
    + pose proof (Ha _ Hin) as Hle. cbn [snd] in Hle. split; [exact Hle |].
      intros _.
      assert (Sorted Z.lt (map fst (hour_query db))) as Hs.
      { unfold hour_query. rewrite map_map. cbn [fst]. rewrite map_id.
        apply group_hours_Sorted. }
      rewrite Hrows, map_app in Hs. cbn [map fst] in Hs.
      pose proof (Sorted_lt_split _ _ _ Hs h' (in_map fst _ _ Hin)). cbn [fst] in *. lia.
Qed.

(** ** The executive summary of the analysis and the API summary *)

Lemma executive_rows (s : datetime) (l : list summary_row) :
  filter (executive_where s) l = filter has_post (filter (summary_where s) l).
Proof.
  rewrite filter_filter. apply filter_ext. intros r.
  unfold executive_where, summary_where, has_post, row_post.
  destruct (snd (fst r)); [now rewrite andb_true_r | reflexivity].
Qed.

Lemma non_null_posts_kept (l : list summary_row) :
  non_null (map row_post (filter has_post l)) = non_null (map row_post l).
Proof.
  induction l as [| r l IH]; [reflexivity |].
  cbn [filter map]. unfold has_post at 1.
  destruct (row_post r) as [p |] eqn:E; cbn [map non_null]; rewrite ?E;
    cbn [non_null]; now rewrite IH.
Qed.

Lemma summary_join_engagement_has_post (db : database) (r : summary_row) :
  In r (summary_join db) -> has_post r = false -> row_engagement r = None.
Proof.
  unfold summary_join. rewrite in_flat_map. intros [[a op] [_ Hin]] Hp.
  cbn [fst snd] in Hin. destruct op as [p |].
  - exfalso.
    destruct (filter (fun e => Db.post_id p =? eng_post_id e) (engagements db))
      as [| e es].
    + destruct Hin as [<- | []]. discriminate Hp.
    + apply in_map_iff in Hin. destruct Hin as [e0 [<- _]]. discriminate Hp.
  - destruct Hin as [<- | []]. reflexivity.
Qed.

Lemma count_filter_kept {A} (f g : A -> bool) (l : list A) :
  (forall a, In a l -> g a = false -> f a = false) ->
  count_filter f (filter g l) = count_filter f l.
Proof.
  induction l as [| a l IH]; intros H; [reflexivity |].
  cbn [filter]. assert (count_filter f (filter g l) = count_filter f l) as E
      by (apply IH; intros b Hb; apply H; now right).
  destruct (g a) eqn:Hg; rewrite !count_filter_cons, E; [reflexivity |].
  rewrite (H a (or_introl eq_refl) Hg). reflexivity.
Qed.

Lemma count_distinct_app_disjoint (l1 l2 : list Z) :
  (forall x, In x l1 -> ~ In x l2) ->
  count_distinct (l1 ++ l2) = count_distinct l1 + count_distinct l2.
Proof.
  unfold count_distinct. induction l1 as [| a l1 IH]; intros Hd; [reflexivity |].
  assert (forall x, In x l1 -> ~ In x l2) as Hd' by (intros x Hx; apply Hd; now right).
  specialize (IH Hd'). cbn [app nodup].
  destruct (in_dec Z.eq_dec a (l1 ++ l2)) as [Hin | Hout];
    destruct (in_dec Z.eq_dec a l1) as [Hin1 | Hout1].
  - exact IH.
  - exfalso. apply in_app_or in Hin. destruct Hin as [Hin | Hin];
      [contradiction | apply (Hd a); [now left | exact Hin]].
  - exfalso. apply Hout, in_or_app. now left.
  - cbn [List.length]. rewrite !Nat2Z.inj_succ. lia.
Qed.

Lemma posts_of_same_id (db : database) (a b : author) :
  Db.author_id a = Db.author_id b -> posts_of db a = posts_of db b.
Proof. unfold posts_of. now intros ->. Qed.

Lemma without_posts_iff (db : database) (a : author) :
  without_posts db a = true <-> posts_of db a = [].
Proof.
  unfold without_posts. change (filter _ (posts db)) with (posts_of db a).
  destruct (posts_of db a); split; intros H; auto; discriminate.
Qed.

(** X17: the executive summary of the analysis script, run on the day
    [today], agrees with the summary query of the API for the same start
    date (midnight, 365 days before) on total_posts, total_engagements,
    the four per-type counts and the average; only total_authors differs:
    the API also counts the authors that have no post at all. *)
Theorem executive_summary_vs_api (nd : Z -> Z -> Z) (db : database)
  (today : Z) :
  let api := summary_query nd db (year_start today) in
  let ex := executive_summary nd db today in
  total_posts_col ex = total_posts_col api
  /\ total_engagements_col ex = total_engagements_col api
  /\ total_views_col ex = total_views_col api
  /\ total_likes_col ex = total_likes_col api
  /\ total_comments_col ex = total_comments_col api
  /\ total_shares_col ex = total_shares_col api
  /\ avg_engagement_per_post_col ex = avg_engagement_per_post_col api
  /\ total_authors_col api
     = total_authors_col ex
       + count_distinct (map Db.author_id (filter (without_posts db) (authors db))).
Proof.
  intros api ex. unfold api, ex, summary_query, executive_summary.
  cbn [total_authors_col total_posts_col total_engagements_col total_views_col
       total_likes_col total_comments_col total_shares_col
       avg_engagement_per_post_col].
  rewrite executive_rows.
  set (rows := filter (summary_where (year_start today)) (summary_join db)).
  assert (forall r, In r rows -> has_post r = false -> row_engagement r = None)
    as Hnone.
  { intros r Hr. apply filter_In in Hr. destruct Hr as [Hr _].
    now apply (summary_join_engagement_has_post db). }
  assert (forall t r, In r rows -> has_post r = false ->
                      engagement_has_type t r = false) as Htype.
  { intros t r Hr Hp. unfold engagement_has_type. now rewrite (Hnone r Hr Hp). }
  assert (Z.of_nat (List.length (non_null (map row_engagement (filter has_post rows))))
          = Z.of_nat (List.length (non_null (map row_engagement rows)))) as Heng.
  { rewrite !non_null_engagements. apply count_filter_kept.
    intros r Hr Hp. unfold has_engagement. now rewrite (Hnone r Hr Hp). }
  rewrite non_null_posts_kept, Heng, !count_filter_kept by (apply Htype).
  repeat split; try reflexivity.
  rewrite <- count_distinct_app_disjoint.
  - apply count_distinct_same. intros x. rewrite in_app_iff, !in_map_iff. split.
    + intros [[[a op] oe] [Hx Hrow]]. cbn [row_author fst] in Hx.
      destruct op as [p |].
      * left. exists (a, Some p, oe). split; [exact Hx |].
        apply filter_In. split; [exact Hrow | reflexivity].
      * right. exists a. split; [exact Hx |]. apply filter_In in Hrow.
        destruct Hrow as [Hrow _]. apply summary_row_In in Hrow.
        apply filter_In. split; [tauto |]. apply without_posts_iff. tauto.
    + intros [[r [Hx Hr]] | [a [Hx Ha]]].
      * exists r. split; [exact Hx |]. now apply filter_In in Hr.
      * apply filter_In in Ha. destruct Ha as [Ha Hw].
        apply without_posts_iff in Hw.
        assert (In (a, None) (author_left_join_posts db)) as Hap
            by (apply author_left_join_posts_In; auto).
        apply summary_join_In in Hap. destruct Hap as [oe Hrow].
        exists (a, None, oe). split; [exact Hx |].
        apply filter_In. split; [exact Hrow | reflexivity].
  - intros x Hx Hx'. apply in_map_iff in Hx, Hx'.
    destruct Hx as [[[a op] oe] [Hx Hr]]. destruct Hx' as [b [Hb Hbin]].
    cbn [row_author fst] in Hx. apply filter_In in Hr. destruct Hr as [Hr Hp].
    destruct op as [p |]; [| discriminate Hp].
    apply filter_In in Hr. destruct Hr as [Hr _]. apply summary_row_In in Hr.
    destruct Hr as [Ha [Hpin Hid]].
    apply filter_In in Hbin. destruct Hbin as [_ Hw].
    apply without_posts_iff in Hw.
    assert (In p (posts_of db b)) as Hpb.
    { unfold posts_of. apply filter_In. split; [exact Hpin |].
      apply Z.eqb_eq. congruence. }
    rewrite Hw in Hpb. destruct Hpb.
Qed.

(** ** The join count of the setup check and the counts by author name *)

Lemma summary_engagements_triples (nd : Z -> Z -> Z) (db : database)
  (s : datetime) :
  total_engagements_col (summary_query nd db s)
  = count_filter (counted_triple s)
      (list_prod (authors db) (list_prod (posts db) (engagements db))).
Proof.
  unfold summary_query. cbn [total_engagements_col].
  rewrite non_null_engagements, count_filter_filter.
  unfold summary_join. rewrite count_filter_flat_map.
  unfold author_left_join_posts. rewrite sum_list_flat_map.
  rewrite count_filter_list_prod. f_equal. apply map_ext. intros a.
  rewrite counted_triple_author.
  apply (summary_author_engagements db s a).
Qed.

Lemma count_filter_and_le {A} (f g : A -> bool) (l : list A) :
  count_filter (fun a => f a && g a) l <= count_filter f l.
Proof.
  induction l as [| a l IH]; [cbn; lia |].
  rewrite !count_filter_cons. destruct (f a); destruct (g a); cbn [andb]; lia.
Qed.

Lemma count_filter_ext_in {A} (f g : A -> bool) (l : list A) :
  (forall a, In a l -> f a = g a) -> count_filter f l = count_filter g l.
Proof.
  intros H. unfold count_filter. now rewrite (filter_ext_in f g l H).
Qed.

(** X18: the engagement count that the setup check prints (the inner join
    of authors, posts and engagements) bounds total_engagements of every
    summary response, and equals it when every post was published at or
    after now - N. *)
Theorem summary_engagements_within_join (nd : Z -> Z -> Z) (db : database)
  (now : datetime) (days : Z) (r : SummaryMetrics) :
  get_analytics_summary nd db now days = inr r ->
  0 <= total_engagements r <= joined_engagement_count db
  /\ ((forall p, In p (posts db) -> now - days * usec_per_day <= publish_timestamp p) ->
      total_engagements r = joined_engagement_count db).
Proof.
  intros H. apply summary_inr in H. subst r. cbn [total_engagements].
  rewrite summary_engagements_triples. unfold joined_engagement_count, counted_triple.
  split; [split; [apply count_filter_nonneg | apply count_filter_and_le] |].
  intros Hall. apply count_filter_ext_in. intros [a [p e]] Hin.
  apply in_prod_iff in Hin. destruct Hin as [_ Hin].
  apply in_prod_iff in Hin. destruct Hin as [Hp _]. cbn [fst snd].
  specialize (Hall p Hp). apply Z.leb_le in Hall. rewrite Hall.
  now rewrite andb_true_r.
Qed.

(** A year and a half at [now0] covers both posts of [db0]: the summary
    and the setup check count the same four engagements. *)
Lemma summary_engagements_within_join_witness :
  exists r,
    get_analytics_summary Example.round_half_up_div Example.db0 Example.now0 500 = inr r
    /\ joined_engagement_count Example.db0 = 4
    /\ total_engagements r = joined_engagement_count Example.db0.
Proof.
  eexists. split; [vm_compute; reflexivity |]. split; [reflexivity |].
  refine (proj2 (summary_engagements_within_join Example.round_half_up_div
                   Example.db0 Example.now0 500 _ _) _).
  - vm_compute; reflexivity.
  - intros p [<- | [<- | []]]; vm_compute; discriminate.
Defined.

Lemma count_filter_as_sum {A} (f : A -> bool) (l : list A) :
  count_filter f l = sum_list (map (fun a => if f a then 1 else 0) l).
Proof.
  induction l as [| a l IH]; [reflexivity |].
  cbn [map]. rewrite count_filter_cons, sum_list_cons, IH. reflexivity.
Qed.

(** The rows one pair of the first join contributes to the counts of a
    name. *)
Lemma named_pair_counts (db : database) (nm : string) (ap : author * option post) :
  count_filter (fun r => named nm r && has_post r)
    match snd ap with
    | None => [(fst ap, None, None)]
    | Some p =>
        match filter (fun e => Db.post_id p =? eng_post_id e) (engagements db) with
        | [] => [(fst ap, Some p, None)]
        | es => map (fun e => (fst ap, Some p, Some e)) es
        end
    end
  = count_filter (fun r => named nm r && has_engagement r)
      match snd ap with
      | None => [(fst ap, None, None)]
      | Some p =>
          match filter (fun e => Db.post_id p =? eng_post_id e) (engagements db) with
          | [] => [(fst ap, Some p, None)]
          | es => map (fun e => (fst ap, Some p, Some e)) es
          end
      end
    + (if String.eqb (name (fst ap)) nm
          && match snd ap with
             | Some p =>
                 match filter (fun e => Db.post_id p =? eng_post_id e)
                         (engagements db) with
                 | [] => true
                 | _ => false
                 end
             | None => false
             end
       then 1 else 0).
Proof.
  destruct ap as [a [p |]]; cbn [fst snd].
  - destruct (filter (fun e => Db.post_id p =? eng_post_id e) (engagements db))
      as [| e es].
    + rewrite !count_filter_cons. unfold named, has_post, has_engagement.
      cbn. destruct (String.eqb (name a) nm); reflexivity.
    + rewrite andb_false_r, Z.add_0_r, !count_filter_map.
      apply count_filter_ext. intros x. reflexivity.
  - rewrite !count_filter_cons, andb_false_r. unfold named, has_post, has_engagement.
    cbn. now rewrite andb_false_r.
Qed.

(** X19: in the per-name counts of the setup check, post_count is
    [COUNT(p.post_id)] over the rows of the outer joins, not a count of
    posts: it equals engagement_count plus the number of the name's posts
    without engagement, so a post counts once per engagement and
    post_count is never below engagement_count. *)
Theorem post_count_counts_join_rows (db : database) (nm : string) :
  post_count db nm = engagement_count db nm + silent_posts db nm
  /\ engagement_count db nm <= post_count db nm.
Proof.
  assert (post_count db nm = engagement_count db nm + silent_posts db nm) as E.
  { unfold post_count, engagement_count, silent_posts.
    change (fun r : summary_row =>
              match row_engagement r with Some _ => true | None => false end)
      with has_engagement.
    rewrite !count_filter_filter. unfold summary_join.
    rewrite !count_filter_flat_map, count_filter_as_sum, <- sum_list_add.
    f_equal. apply map_ext. intros ap. apply named_pair_counts. }
  split; [exact E |]. rewrite E.
  pose proof (count_filter_nonneg
                (fun ap : author * option post =>
                   String.eqb (name (fst ap)) nm
                   && match snd ap with
                      | Some p =>
                          match filter (fun e => Db.post_id p =? eng_post_id e)
                                  (engagements db) with
                          | [] => true
                          | _ => false
                          end
                      | None => false
                      end)
                (author_left_join_posts db)) as Hn.
  unfold silent_posts. lia.
Qed.

(** In [db0] the one post of Ada has four engagements and counts four
    times; the post of Cy has none and counts once. *)
Lemma post_count_examples :
  post_count Example.db0 "Ada" = 4 /\ engagement_count Example.db0 "Ada" = 4
  /\ post_count Example.db0 "Cy" = 1 /\ engagement_count Example.db0 "Cy" = 0
  /\ post_count Example.db0 "Bo" = 0.
Proof. repeat split; reflexivity. Qed.

(** ** The rows of the post generator *)

Lemma rstrip_dot_no_dot (s : string) : ends_with_dot (rstrip_dot s) = false.
Proof.
  induction s as [| c rest IH]; [reflexivity |].
  cbn [rstrip_dot]. destruct (rstrip_dot rest) as [| c' r'].
  - destruct (Ascii.eqb c dot) eqn:E; [reflexivity |]. cbn. exact E.
  - exact IH.
Qed.

Lemma rstrip_dot_dots (s : string) :
  exists n, s = String.append (rstrip_dot s) (dots n).
Proof.
  induction s as [| c rest [n IH]]; [exists 0%nat; reflexivity |].
  cbn [rstrip_dot]. destruct (rstrip_dot rest) as [| c' r'].
  - cbn [String.append] in IH. destruct (Ascii.eqb c dot) eqn:E.
    + apply Ascii.eqb_eq in E. subst c. exists (S n). cbn. now rewrite <- IH.
    + exists n. cbn. now rewrite <- IH.
  - exists n. cbn [String.append] in *. now rewrite <- IH.
Qed.

Lemma generate_post_inr (authors : list author_row) (start_date : datetime)
  (i : Z) (r : post_draws) (p : post_row) (m : post_metadata_row) :
  generate_post authors start_date i r = inr (p, m) ->
  pr_post_id p = i /\ md_post_id m = i /\ language m = "en"
  /\ tags m = drawn_tags r
  /\ pr_author_id p = chosen_author r
  /\ pr_title p = rstrip_dot (sentence r)
  /\ content_length p = drawn_content_length r
  /\ pr_publish_timestamp p
     = start_date + (day_offset r * usec_per_day + hours r * usec_per_hour
                     + minutes r * 60000000)
  /\ exists a, In a authors /\ ar_author_id a = chosen_author r
               /\ category p = if keep_author_category r then author_category a
                               else chosen_category r.
Proof.
  unfold generate_post.
  destruct (find _ authors) as [a |] eqn:Hfind; [| discriminate].
  destruct (bind _ _) as [e | publish_date] eqn:Hd; [discriminate |].
  intros H. inversion H; subst p m; clear H. cbn.
  apply bind_inr in Hd. destruct Hd as [d [Hd Hadd]].
  apply datetime_add_inr in Hadd. unfold timedelta_dhm in Hd.
  destruct (Z.abs _ <=? 999999999); [| discriminate]. inversion Hd; subst d.
  apply find_some in Hfind. destruct Hfind as [Ha Hid]. apply Z.eqb_eq in Hid.
  repeat split; auto. exists a. auto.
Qed.

Lemma generate_posts_from_cons (authors : list author_row) (start_date : datetime)
  (i : Z) (r : post_draws) (rs : list post_draws)
  (rows : list (post_row * post_metadata_row)) :
  generate_posts_from authors start_date i (r :: rs) = inr rows ->
  exists row rows', rows = row :: rows'
                    /\ generate_post authors start_date i r = inr row
                    /\ generate_posts_from authors start_date (i + 1) rs = inr rows'.
Proof.
  cbn [generate_posts_from].
  destruct (generate_post authors start_date i r) as [e | row]; [discriminate |].
  destruct (generate_posts_from authors start_date (i + 1) rs) as [e | rows'];
    [discriminate |].
  intros H. inversion H. eauto.
Qed.

Lemma generate_posts_from_rows (authors : list author_row) (start_date : datetime)
  (rs : list post_draws) (i : Z) (rows : list (post_row * post_metadata_row)) :
  generate_posts_from authors start_date i rs = inr rows ->
  map (fun row => pr_post_id (fst row)) rows = ids_from i (List.length rs)
  /\ forall row, In row rows ->
       exists j r, In r rs /\ generate_post authors start_date j r = inr row.
Proof.
  revert i rows. induction rs as [| r rs IH]; intros i rows H.
  - inversion H. split; [reflexivity | intros row []].
  - apply generate_posts_from_cons in H.
    destruct H as [[p m] [rows' [-> [Hrow Hrest]]]].
    destruct (IH _ _ Hrest) as [Hids Hall].
    pose proof (generate_post_inr _ _ _ _ _ _ Hrow) as [Hid _]. split.
    + cbn [map List.length fst]. rewrite ids_from_succ, Hids, Hid. reflexivity.
    + intros row [<- | Hin].
      * exists i, r. split; [now left | exact Hrow].
      * destruct (Hall row Hin) as [j [r' [Hr' Hj]]].
        exists j, r'. split; [now right | exact Hj].
Qed.

Lemma generate_posts_start (authors : list author_row) (now : datetime)
  (rs : list post_draws) (rows : list (post_row * post_metadata_row)) :
  generate_posts authors now rs = inr rows ->
  generate_posts_from authors (now - 180 * usec_per_day) 104 rs = inr rows.
Proof.
  unfold generate_posts.
  destruct (bind (timedelta_days 180) _) as [e | start_date] eqn:Hs; [discriminate |].
  apply bind_inr in Hs. destruct Hs as [d [Hd Hsub]].
  apply timedelta_days_inr in Hd. subst d. apply datetime_sub_inr in Hsub.
  now subst start_date.
Qed.

(** X20: when [generate_posts] completes, it has produced one posts row
    per iteration with the ids 104, 105, ... in order (distinct, above the
    sample id 103), each with one post_metadata row of the same id and
    language 'en'. *)
Theorem generated_posts_ids_and_metadata (authors : list author_row)
  (now : datetime) (rs : list post_draws)
  (rows : list (post_row * post_metadata_row)) :
  generate_posts authors now rs = inr rows ->
  List.length rows = List.length rs
  /\ map (fun row => pr_post_id (fst row)) rows = ids_from 104 (List.length rs)
  /\ NoDup (map (fun row => pr_post_id (fst row)) rows)
  /\ forall p m, In (p, m) rows ->
       103 < pr_post_id p /\ md_post_id m = pr_post_id p /\ language m = "en".
Proof.
  intros H. apply generate_posts_start, generate_posts_from_rows in H.
  destruct H as [Hids Hall]. split; [| split; [exact Hids | split]].
  - rewrite <- (length_map (fun row => pr_post_id (fst row))), Hids.
    unfold ids_from. now rewrite length_map, length_seq.
  - rewrite Hids. apply ids_from_NoDup.
  - intros p m Hin. destruct (Hall _ Hin) as [j [r [_ Hrow]]].
    apply generate_post_inr in Hrow. destruct Hrow as [Hp [Hm [Hl _]]].
    apply (in_map (fun row => pr_post_id (fst row))) in Hin. rewrite Hids in Hin.
    apply ids_from_In in Hin. cbn [fst] in Hin. repeat split; [lia | congruence | exact Hl].
Qed.

(** X21: with draws that [random] can return for the authors table, every
    posts row that [generate_posts] produces is published between
    now - 180 days and now + 23 h 59 min (so up to almost a day after the
    run), has the id of an author of the table, a category that is that
    author's or one of CATEGORIES, a content length between 500 and 3000,
    one to four tags, and a title that is the drawn sentence without its
    trailing dots. *)
Theorem generated_post_fields (authors : list author_row) (now : datetime)
  (rs : list post_draws) (rows : list (post_row * post_metadata_row)) :
  Forall (possible_post (map ar_author_id authors)) rs ->
  generate_posts authors now rs = inr rows ->
  forall p m, In (p, m) rows ->
    now - 180 * usec_per_day <= pr_publish_timestamp p
    <= now + 23 * usec_per_hour + 59 * 60000000
    /\ (exists a, In a authors /\ ar_author_id a = pr_author_id p
                  /\ (category p = author_category a \/ In (category p) CATEGORIES))
    /\ 500 <= content_length p <= 3000
    /\ (1 <= List.length (tags m) <= 4)%nat
    /\ ends_with_dot (pr_title p) = false
    /\ exists r n, In r rs /\ sentence r = String.append (pr_title p) (dots n).
Proof.
  intros Hposs H p m Hin.
  apply generate_posts_start, generate_posts_from_rows in H.
  destruct H as [_ Hall]. destruct (Hall _ Hin) as [j [r [Hr Hrow]]].
  rewrite Forall_forall in Hposs.
  destruct (Hposs r Hr) as [_ [Hcat [Hh [Hm [Hd [Hc Ht]]]]]].
  apply generate_post_inr in Hrow.
  destruct Hrow as [_ [_ [_ [Htags [Hauth [Htitle [Hlen [Hpub [a [Ha [Hid Hcatp]]]]]]]]]]].
  split; [rewrite Hpub; unfold usec_per_day, usec_per_hour; lia |].
  split.
  { exists a. split; [exact Ha |]. split; [congruence |].
    rewrite Hcatp. destruct (keep_author_category r); auto. }
  split; [now rewrite Hlen |]. split; [now rewrite Htags |].
  split; [rewrite Htitle; apply rstrip_dot_no_dot |].
  destruct (rstrip_dot_dots (sentence r)) as [n Hn].
  exists r, n. split; [exact Hr |]. now rewrite Htitle.
Qed.

(** Two posts for Ada at [now0]: the latest and the earliest publication
    the generator can draw. *)
Lemma generated_posts_ids_and_metadata_witness :
  exists rows,
    generate_posts [PostSample.ada_row] Example.now0
      [PostSample.latest; PostSample.earliest] = inr rows
    /\ map (fun row => pr_post_id (fst row)) rows = [104; 105]
    /\ map (fun row => md_post_id (snd row)) rows = [104; 105]
    /\ NoDup (map (fun row => pr_post_id (fst row)) rows).
Proof.
  eexists. split; [vm_compute; reflexivity |].
  split; [reflexivity |]. split; [reflexivity |].
  refine (proj1 (proj2 (proj2
            (generated_posts_ids_and_metadata [PostSample.ada_row] Example.now0
               [PostSample.latest; PostSample.earliest] _ _)))).
  vm_compute; reflexivity.
Defined.

Lemma sample_post_draws_possible :
  Forall (possible_post (map ar_author_id [PostSample.ada_row]))
    [PostSample.latest; PostSample.earliest].
Proof.
  repeat constructor; cbn; auto 10; lia.
Qed.

Lemma generated_post_fields_witness :
  exists rows p m,
    generate_posts [PostSample.ada_row] Example.now0
      [PostSample.latest; PostSample.earliest] = inr rows
    /\ In (p, m) rows
    /\ pr_title p = "Late breaking news"
    /\ category p = "Tech"
    /\ pr_publish_timestamp p = Example.now0 + 23 * usec_per_hour + 59 * 60000000
    /\ Example.now0 - 180 * usec_per_day <= pr_publish_timestamp p
       <= Example.now0 + 23 * usec_per_hour + 59 * 60000000.
Proof.
  do 3 eexists. split; [vm_compute; reflexivity |].
  split; [left; reflexivity |].
  split; [reflexivity |]. split; [reflexivity |]. split; [reflexivity |].
  refine (proj1 (generated_post_fields [PostSample.ada_row] Example.now0
                   [PostSample.latest; PostSample.earliest] _
                   sample_post_draws_possible _ _ _ _)).
  - vm_compute; reflexivity.
  - left; reflexivity.
Defined.

Lemma find_author_row (authors : list author_row) (id : Z) :
  In id (map ar_author_id authors) ->
  exists a, find (fun a => ar_author_id a =? id) authors = Some a.
Proof.
  induction authors as [| a authors IH]; intros Hin; [destruct Hin |].
  cbn [find]. destruct (ar_author_id a =? id) eqn:E; [eauto |].
  apply Z.eqb_neq in E. destruct Hin as [Hin | Hin]; [contradiction | auto].
Qed.

Lemma generate_post_succeeds (authors : list author_row) (start_date : datetime)
  (i : Z) (r : post_draws) :
  possible_post (map ar_author_id authors) r ->
  0 <= start_date -> start_date + 181 * usec_per_day <= datetime_max ->
  exists row, generate_post authors start_date i r = inr row.
Proof.
  intros [Hauth [_ [Hh [Hm [Hd _]]]]] Hlo Hhi. unfold generate_post.
  destruct (find_author_row _ _ Hauth) as [a ->].
  unfold timedelta_dhm.
  set (us := day_offset r * usec_per_day + hours r * usec_per_hour
             + minutes r * 60000000).
  assert (0 <= us < 181 * usec_per_day) as Hus
      by (unfold us, usec_per_day, usec_per_hour; lia).
  assert ((Z.abs (us / usec_per_day) <=? 999999999) = true) as ->.
  { apply Z.leb_le. unfold usec_per_day in *. Z.div_mod_to_equations. lia. }
  cbn [bind ret]. unfold datetime_add.
  assert (((0 <=? start_date + us) && (start_date + us <=? datetime_max)) = true) as ->.
  { apply andb_true_iff. rewrite !Z.leb_le. lia. }
  eexists. reflexivity.
Qed.

(** X22: the post generator cannot fail on draws that [random] can return
    for the authors table, when now is at least 180 days after the first
    datetime and at least a day before the last one: every author it
    picks is found and every publication date is a datetime. *)
Theorem generate_posts_succeeds (authors : list author_row) (now : datetime)
  (rs : list post_draws) :
  Forall (possible_post (map ar_author_id authors)) rs ->
  180 * usec_per_day <= now -> now + usec_per_day <= datetime_max ->
  exists rows, generate_posts authors now rs = inr rows.
Proof.
  intros Hposs Hlo Hhi. unfold generate_posts.
  rewrite (timedelta_days_ok 180) by (cbn; lia). cbn [bind].
  rewrite datetime_sub_ok by (unfold usec_per_day in *; lia).
  generalize 104. induction Hposs as [| r rs Hr Hall IH]; intros i.
  - eexists. reflexivity.
  - cbn [generate_posts_from].
    destruct (generate_post_succeeds authors (now - 180 * usec_per_day) i r Hr)
      as [row ->]; [lia | unfold usec_per_day in *; lia |].
    destruct (IH (i + 1)) as [rows ->]. eexists. reflexivity.
Qed.

Lemma generate_posts_succeeds_witness :
  exists rows,
    generate_posts [PostSample.ada_row] Example.now0
      [PostSample.latest; PostSample.earliest] = inr rows.
Proof.
  apply (generate_posts_succeeds [PostSample.ada_row] Example.now0
           [PostSample.latest; PostSample.earliest] sample_post_draws_possible).
  - vm_compute; intros H; discriminate H.
  - vm_compute; intros H; discriminate H.
Defined.




(** In [db0] the hours 12 and 13 tie with two engagements each: the peak
    hour is the earlier one. *)
Lemma peak_hour_is_earliest_maximum_witness :
  peak_hour Example.db0 = Some 12
  /\ exists n, In (12, n) (hour_query Example.db0)
               /\ forall h' n', In (h', n') (hour_query Example.db0) ->
                    n' <= n /\ (n' = n -> 12 <= h').
Proof.
  split; [reflexivity |].
  exact (proj2 (peak_hour_is_earliest_maximum Example.db0) 12 eq_refl).
Defined.

(** On 2025-01-01 in [db0]: Bo has no post, and only the API counts Bo. *)
Lemma executive_summary_vs_api_witness :
  total_authors_col (executive_summary Example.round_half_up_div Example.db0 739251) = 1
  /\ total_authors_col
       (summary_query Example.round_half_up_div Example.db0 (year_start 739251))
     = total_authors_col (executive_summary Example.round_half_up_div Example.db0 739251)
       + count_distinct
           (map Db.author_id (filter (without_posts Example.db0) (authors Example.db0))).
Proof.
  split; [reflexivity |].
  exact (proj2 (proj2 (proj2 (proj2 (proj2 (proj2 (proj2
          (executive_summary_vs_api Example.round_half_up_div Example.db0 739251)))))))).
Defined.
